(** * Gilded Rose: strategy-dispatch inventory update engine

    A shallow embedding of [gilded_rose.py] (strategy pattern refactoring of
    the Gilded Rose kata) and the properties of its update engine.

    The Python file routes every method through a trampoline that forwards
    to the original body unless a mutation run selects a variant; the
    definitions below embed the original bodies.

    Modelling choices
    - Python [int] is unbounded: [Z].
    - An [Item] is a mutable object.  Objects live in a heap, a finite map
      from object identities to their current field values; the inventory
      ([GildedRose.items]) is a list of object identities, so that one
      object listed twice is one object, updated twice.
    - A method that mutates its [item] argument is a function from the
      fields before the call to the fields after it.
    - [QualityUpdater] is an abstract class with two abstract methods: a
      record of two functions.  The factory's [_strategies] dict is a
      [gmap] keyed by the item name. *)

From Stdlib Require Import ZArith Lia Ascii DecimalString DecimalZ DecimalPos.
From stdpp Require Import base gmap strings list fin_maps.

(** ** Item *)

Record Item := mkItem { name : string; sell_in : Z; quality : Z }.

(** ** QualityUpdater: the strategy interface and its shared helpers *)

Record QualityUpdater := mkUpdater {
  update_quality : Item → Item;
  update_sell_in : Item → Item
}.

Definition MINIMUM_QUALITY : Z := 0.
Definition MAXIMUM_QUALITY : Z := 50.

(** [max(self.MINIMUM_QUALITY, min(quality, self.MAXIMUM_QUALITY))] *)
Definition clamp_quality (q : Z) : Z :=
  Z.max MINIMUM_QUALITY (Z.min q MAXIMUM_QUALITY).

(** [item.sell_in < 0] *)
Definition is_expired (item : Item) : bool := (sell_in item <? 0)%Z.

(** [item.sell_in -= 1] *)
Definition decrease_sell_in (item : Item) : Item :=
  mkItem (name item) (sell_in item - 1) (quality item).

(** [item.quality = v] *)
Definition set_quality (item : Item) (v : Z) : Item :=
  mkItem (name item) (sell_in item) v.

(** ** NormalItemUpdater *)

Module NormalItemUpdater.

Definition _degrade_quality_before_expiration (item : Item) : Item :=
  set_quality item (clamp_quality (quality item - 1)).

Definition _degrade_quality_additional_after_expiration (item : Item) : Item :=
  set_quality item (clamp_quality (quality item - 1)).

Definition update_quality (item : Item) : Item :=
  _degrade_quality_before_expiration item.

Definition update_sell_in (item : Item) : Item :=
  let item := decrease_sell_in item in
  if is_expired item
  then _degrade_quality_additional_after_expiration item
  else item.

End NormalItemUpdater.

Definition NormalItemUpdater : QualityUpdater :=
  mkUpdater NormalItemUpdater.update_quality NormalItemUpdater.update_sell_in.

(** ** AgedBrieUpdater *)

Module AgedBrieUpdater.

Definition _improve_quality_before_expiration (item : Item) : Item :=
  set_quality item (clamp_quality (quality item + 1)).

Definition _improve_quality_additional_after_expiration (item : Item) : Item :=
  set_quality item (clamp_quality (quality item + 1)).

Definition update_quality (item : Item) : Item :=
  _improve_quality_before_expiration item.

Definition update_sell_in (item : Item) : Item :=
  let item := decrease_sell_in item in
  if is_expired item
  then _improve_quality_additional_after_expiration item
  else item.

End AgedBrieUpdater.

Definition AgedBrieUpdater : QualityUpdater :=
  mkUpdater AgedBrieUpdater.update_quality AgedBrieUpdater.update_sell_in.

(** ** BackstagePassUpdater *)

Module BackstagePassUpdater.

Definition DAYS_CRITICAL_ZONE : Z := 6.
Definition DAYS_URGENT_ZONE : Z := 11.

Definition _calculate_quality_increase (days_until_concert : Z) : Z :=
  if (days_until_concert <? DAYS_CRITICAL_ZONE)%Z then 3
  else if (days_until_concert <? DAYS_URGENT_ZONE)%Z then 2
  else 1.

Definition _increase_quality_by_urgency (item : Item) : Item :=
  let quality_increase := _calculate_quality_increase (sell_in item) in
  set_quality item (clamp_quality (quality item + quality_increase)).

Definition _expire_backstage_pass (item : Item) : Item :=
  set_quality item MINIMUM_QUALITY.

Definition update_quality (item : Item) : Item :=
  _increase_quality_by_urgency item.

Definition update_sell_in (item : Item) : Item :=
  let item := decrease_sell_in item in
  if is_expired item
  then _expire_backstage_pass item
  else item.

End BackstagePassUpdater.

Definition BackstagePassUpdater : QualityUpdater :=
  mkUpdater BackstagePassUpdater.update_quality BackstagePassUpdater.update_sell_in.

(** ** SulfurasUpdater: both methods are [pass] *)

Module SulfurasUpdater.

Definition update_quality (item : Item) : Item := item.
Definition update_sell_in (item : Item) : Item := item.

End SulfurasUpdater.

Definition SulfurasUpdater : QualityUpdater :=
  mkUpdater SulfurasUpdater.update_quality SulfurasUpdater.update_sell_in.

(** ** ItemUpdaterFactory *)

Module ItemUpdaterFactory.

Record t := mk { _strategies : gmap string QualityUpdater }.

Definition __init__ : t :=
  mk (<["Aged Brie" := AgedBrieUpdater]>
      (<["Backstage passes to a TAFKAL80ETC concert" := BackstagePassUpdater]>
       (<["Sulfuras, Hand of Ragnaros" := SulfurasUpdater]> ∅))).

(** [self._strategies.get(item_name, NormalItemUpdater())] *)
Definition get_updater (self : t) (item_name : string) : QualityUpdater :=
  default NormalItemUpdater (_strategies self !! item_name).

(** [self._strategies[item_name] = updater] *)
Definition register_strategy (self : t) (item_name : string)
    (updater : QualityUpdater) : t :=
  mk (<[item_name := updater]> (_strategies self)).

End ItemUpdaterFactory.

(** ** GildedRose *)

(** Object identities of [Item] objects. *)
Definition loc := nat.

Module GildedRose.

Record t := mk {
  items : list loc;
  _updater_factory : ItemUpdaterFactory.t
}.

(** The program state: the inventory manager and the heap of items. *)
Record World := mkWorld {
  self : t;
  heap : gmap loc Item
}.

(** [GildedRose(items)], over a heap of already constructed items. *)
Definition __init__ (items : list loc) (h : gmap loc Item) : World :=
  mkWorld (mk items ItemUpdaterFactory.__init__) h.

(** A call [method(item)] of a strategy method on the object [item]. *)
Definition call (method : Item → Item) (item : loc) (w : World) : World :=
  mkWorld (self w) (alter method item (heap w)).

(** A list holds live objects; the [None] branch is never taken on a
    well-formed heap. *)
Definition _update_single_item (w : World) (item : loc) : World :=
  match heap w !! item with
  | None => w
  | Some it =>
      let updater :=
        ItemUpdaterFactory.get_updater (_updater_factory (self w)) (name it) in
      let w := call (update_quality updater) item w in
      call (update_sell_in updater) item w
  end.

(** [for item in self.items: self._update_single_item(item)] *)
Definition update_quality (w : World) : World :=
  foldl _update_single_item w (items (self w)).

End GildedRose.

(** [n] successive calls of [GildedRose.update_quality]. *)
Definition ticks (n : nat) (w : GildedRose.World) : GildedRose.World :=
  Nat.iter n GildedRose.update_quality w.

(** What the two strategy calls of [_update_single_item] do to the fields
    of one item, for the strategy the factory [f] resolves from its name. *)
Definition day (f : ItemUpdaterFactory.t) (it : Item) : Item :=
  let updater := ItemUpdaterFactory.get_updater f (name it) in
  update_sell_in updater (update_quality updater it).

(** Number of times the object [r] is listed in a collection. *)
Fixpoint occurrences (r : loc) (l : list loc) : nat :=
  match l with
  | [] => 0%nat
  | x :: l' => ((if Nat.eqb x r then 1 else 0) + occurrences r l')%nat
  end.

(** The names of the fixed registry. *)
Definition AGED_BRIE : string := "Aged Brie".
Definition BACKSTAGE : string := "Backstage passes to a TAFKAL80ETC concert".
Definition SULFURAS : string := "Sulfuras, Hand of Ragnaros".

(** Quality within the bounds of [clamp_quality]. *)
Definition in_range (q : Z) : Prop := (MINIMUM_QUALITY ≤ q ≤ MAXIMUM_QUALITY)%Z.

(** The registry every [GildedRose] is constructed with. *)
Abbreviation builtin := ItemUpdaterFactory.__init__.

Ltac unfold_updaters :=
  unfold NormalItemUpdater.update_quality, NormalItemUpdater.update_sell_in,
    NormalItemUpdater._degrade_quality_before_expiration,
    NormalItemUpdater._degrade_quality_additional_after_expiration,
    AgedBrieUpdater.update_quality, AgedBrieUpdater.update_sell_in,
    AgedBrieUpdater._improve_quality_before_expiration,
    AgedBrieUpdater._improve_quality_additional_after_expiration,
    BackstagePassUpdater.update_quality, BackstagePassUpdater.update_sell_in,
    BackstagePassUpdater._increase_quality_by_urgency,
    BackstagePassUpdater._expire_backstage_pass,
    SulfurasUpdater.update_quality, SulfurasUpdater.update_sell_in,
    is_expired, decrease_sell_in, set_quality in *; simpl in *.

(** ** Item: display and construction *)

(** [str(n)] and [f"{n}"] for an [int]: the decimal digits, after a [-]
    when negative.  (CPython refuses by default to convert an integer of
    more than 4300 digits; the model converts every integer.) *)
Definition str (n : Z) : string := NilZero.string_of_int (Z.to_int n).

(** [f"{self.name}, {self.sell_in}, {self.quality}"] *)
Definition __repr__ (self : Item) : string :=
  name self +:+ ", " +:+ str (sell_in self) +:+ ", " +:+ str (quality self).

(** [Item(name, sell_in, quality)]: a new object, at an identity no live
    object has. *)
Definition new_Item (nm : string) (sell_in quality : Z) (h : gmap loc Item)
    : loc * gmap loc Item :=
  let r := fresh (dom h) in (r, <[r := mkItem nm sell_in quality]> h).

(** ** The step definitions and assertion helpers of [tests/conftest_bdd.py] *)

Module Bdd.

Inductive exn :=
| AssertionError (msg : string)
| IndexError
| AttributeError
| NoSuchObject.
(** [NoSuchObject] marks a reference to an object the heap does not hold; a
    Python list holds live objects, and no session built by the steps
    raises it. *)

Inductive result (A : Type) :=
| Ok (a : A)
| Raise (e : exn).
Arguments Ok {A} a.
Arguments Raise {A} e.

(** [assert cond, msg] *)
Definition assert (cond : bool) (msg : string) : result unit :=
  if cond then Ok tt else Raise (AssertionError msg).

(** Sequencing of statements that may raise. *)
Definition bind {A B} (x : result A) (k : A → result B) : result B :=
  match x with
  | Ok a => k a
  | Raise e => Raise e
  end.

(** The [Context] object of the [context] fixture. *)
Record Context := mkContext {
  items : list loc;
  gilded_rose : option GildedRose.t;
  expected_qualities : list Z;
  expected_sell_ins : list Z
}.

(** A scenario in progress: the context and the heap of items. *)
Record Session := mkSession {
  context : Context;
  objects : gmap loc Item
}.

(** The fixture [context()]: a fresh [Context()]. *)
Definition new_context : Context := mkContext [] None [] [].

(** [context.items[i]] *)
Definition item_at (s : Session) (i : nat) : result Item :=
  match items (context s) !! i with
  | None => Raise IndexError
  | Some r =>
      match objects s !! r with
      | None => Raise NoSuchObject
      | Some it => Ok it
      end
  end.

(** [context.items = [Item(item_name, sell_in, quality)]]
    [context.gilded_rose = GildedRose(context.items)] *)
Definition step_create_single_item (s : Session) (item_name : string)
    (quality sell_in : Z) : Session :=
  let '(r, h) := new_Item item_name sell_in quality (objects s) in
  let w := GildedRose.__init__ [r] h in
  mkSession
    (mkContext [r] (Some (GildedRose.self w))
       (expected_qualities (context s)) (expected_sell_ins (context s)))
    (GildedRose.heap w).

(** [context.items = []]; [context.gilded_rose = GildedRose([])] *)
Definition step_initialize_system (s : Session) : Session :=
  let w := GildedRose.__init__ [] (objects s) in
  mkSession
    (mkContext [] (Some (GildedRose.self w))
       (expected_qualities (context s)) (expected_sell_ins (context s)))
    (GildedRose.heap w).

Definition step_initialize_empty_inventory (s : Session) : Session :=
  let w := GildedRose.__init__ [] (objects s) in
  mkSession
    (mkContext [] (Some (GildedRose.self w))
       (expected_qualities (context s)) (expected_sell_ins (context s)))
    (GildedRose.heap w).

Definition step_ensure_empty_inventory (s : Session) : Session :=
  let w := GildedRose.__init__ [] (objects s) in
  mkSession
    (mkContext [] (Some (GildedRose.self w))
       (expected_qualities (context s)) (expected_sell_ins (context s)))
    (GildedRose.heap w).

(** [context.gilded_rose.update_quality()]; on [None] the attribute
    lookup raises. *)
Definition step_update_quality_once (s : Session) : result Session :=
  match gilded_rose (context s) with
  | None => Raise AttributeError
  | Some g =>
      let w := GildedRose.update_quality (GildedRose.mkWorld g (objects s)) in
      Ok (mkSession
            (mkContext (items (context s)) (Some (GildedRose.self w))
               (expected_qualities (context s)) (expected_sell_ins (context s)))
            (GildedRose.heap w))
  end.

(** [for _ in range(n): context.gilded_rose.update_quality()] *)
Fixpoint update_quality_loop (n : nat) (s : Session) : result Session :=
  match n with
  | O => Ok s
  | S n' => bind (step_update_quality_once s) (update_quality_loop n')
  end.

(** [range(times)] is empty for [times <= 0]. *)
Definition step_update_quality_multiple_times (s : Session) (times : Z)
    : result Session :=
  update_quality_loop (Z.to_nat times) s.

Definition step_update_all_items (s : Session) : result Session :=
  step_update_quality_once s.

Definition step_check_quality (s : Session) (expected : Z) : result unit :=
  bind (item_at s 0) (λ it,
    assert (quality it =? expected)%Z
      ("Esperado qualidade " +:+ str expected +:+ ", mas obteve "
       +:+ str (quality it))).

Definition step_check_sell_in (s : Session) (expected : Z) : result unit :=
  bind (item_at s 0) (λ it,
    assert (sell_in it =? expected)%Z
      ("Esperado sell_in " +:+ str expected +:+ ", mas obteve "
       +:+ str (sell_in it))).

(** [next((i for i in context.items if i.name == item_name), None)] *)
Fixpoint first_named (h : gmap loc Item) (item_name : string) (l : list loc)
    : result (option Item) :=
  match l with
  | [] => Ok None
  | r :: l' =>
      match h !! r with
      | None => Raise NoSuchObject
      | Some it =>
          if String.eqb (name it) item_name then Ok (Some it)
          else first_named h item_name l'
      end
  end.

Definition step_check_item_quality_by_name (s : Session) (item_name : string)
    (expected : Z) : result unit :=
  bind (first_named (objects s) item_name (items (context s))) (λ item,
    match item with
    | None => Raise (AssertionError ("Item '" +:+ item_name +:+ "' não encontrado"))
    | Some it =>
        assert (quality it =? expected)%Z
          ("Item '" +:+ item_name +:+ "': esperado qualidade " +:+ str expected
           +:+ ", mas obteve " +:+ str (quality it))
    end).

Definition step_check_item_sell_in_by_name (s : Session) (item_name : string)
    (expected : Z) : result unit :=
  bind (first_named (objects s) item_name (items (context s))) (λ item,
    match item with
    | None => Raise (AssertionError ("Item '" +:+ item_name +:+ "' não encontrado"))
    | Some it =>
        assert (sell_in it =? expected)%Z
          ("Item '" +:+ item_name +:+ "': esperado sell_in " +:+ str expected
           +:+ ", mas obteve " +:+ str (sell_in it))
    end).

Definition step_check_quality_and_sell_in (s : Session) (q sv : Z)
    : result unit :=
  bind (step_check_quality s q) (λ _, step_check_sell_in s sv).

(** [context.items = []]; [context.gilded_rose = None] *)
Definition after_scenario (s : Session) : Session :=
  mkSession
    (mkContext [] None
       (expected_qualities (context s)) (expected_sell_ins (context s)))
    (objects s).

Definition assert_item_unchanged (item : Item)
    (original_quality original_sell_in : Z) : result unit :=
  bind (assert (quality item =? original_quality)%Z
          ("Qualidade mudou! Esperado " +:+ str original_quality
           +:+ ", obteve " +:+ str (quality item))) (λ _,
    assert (sell_in item =? original_sell_in)%Z
      ("Sell_in mudou! Esperado " +:+ str original_sell_in
       +:+ ", obteve " +:+ str (sell_in item))).

Definition assert_quality_in_bounds (item : Item) (min_quality max_quality : Z)
    : result unit :=
  assert ((min_quality <=? quality item)%Z && (quality item <=? max_quality)%Z)
    ("Qualidade " +:+ str (quality item) +:+ " fora dos limites ["
     +:+ str min_quality +:+ ", " +:+ str max_quality +:+ "]").

Definition assert_quality_decreased (item : Item)
    (original_quality expected_decrease : Z) : result unit :=
  let expected_quality := Z.max 0 (original_quality - expected_decrease) in
  assert (quality item =? expected_quality)%Z
    ("Qualidade esperada " +:+ str expected_quality +:+ ", obteve "
     +:+ str (quality item)).

Definition assert_quality_increased (item : Item)
    (original_quality expected_increase : Z) : result unit :=
  let expected_quality := Z.min 50 (original_quality + expected_increase) in
  assert (quality item =? expected_quality)%Z
    ("Qualidade esperada " +:+ str expected_quality +:+ ", obteve "
     +:+ str (quality item)).

End Bdd.

(** * Properties *)

(** ** The shared helpers *)

Lemma clamp_quality_in_range q : in_range (clamp_quality q).
Proof. unfold in_range, clamp_quality, MINIMUM_QUALITY, MAXIMUM_QUALITY. lia. Qed.


(** ** Strategy resolution on the built-in registry *)

Lemma get_updater_aged_brie :
  ItemUpdaterFactory.get_updater ItemUpdaterFactory.__init__ AGED_BRIE
  = AgedBrieUpdater.
Proof. reflexivity. Qed.

Lemma get_updater_backstage :
  ItemUpdaterFactory.get_updater ItemUpdaterFactory.__init__ BACKSTAGE
  = BackstagePassUpdater.
Proof. reflexivity. Qed.

Lemma get_updater_sulfuras :
  ItemUpdaterFactory.get_updater ItemUpdaterFactory.__init__ SULFURAS
  = SulfurasUpdater.
Proof. reflexivity. Qed.

Lemma get_updater_other nm :
  nm ≠ AGED_BRIE → nm ≠ BACKSTAGE → nm ≠ SULFURAS →
  ItemUpdaterFactory.get_updater ItemUpdaterFactory.__init__ nm
  = NormalItemUpdater.
Proof.
  intros H1 H2 H3.
  unfold ItemUpdaterFactory.get_updater, ItemUpdaterFactory.__init__; simpl.
  rewrite !lookup_insert_ne by (unfold AGED_BRIE, BACKSTAGE, SULFURAS in *; congruence).
  by rewrite lookup_empty.
Qed.

(** ** The loop of [update_quality] over the heap *)

Section Loop.

Import GildedRose.

Lemma self_call m r w : self (call m r w) = self w.
Proof. reflexivity. Qed.

Lemma self_update_single_item w r : self (_update_single_item w r) = self w.
Proof. unfold _update_single_item. by destruct (heap w !! r). Qed.

(** One visit alters the visited object and nothing else. *)
Lemma heap_update_single_item w r :
  heap (_update_single_item w r)
  = alter (day (_updater_factory (self w))) r (heap w).
Proof.
  unfold _update_single_item.
  destruct (heap w !! r) as [it|] eqn:E; simpl.
  - apply map_eq; intros k.
    destruct (decide (r = k)) as [<-|Hne].
    + rewrite !lookup_alter_eq, E. reflexivity.
    + by rewrite !lookup_alter_ne.
  - apply map_eq; intros k.
    destruct (decide (r = k)) as [<-|Hne].
    + by rewrite lookup_alter_eq, E.
    + by rewrite lookup_alter_ne.
Qed.

Lemma self_visits l : ∀ w, self (foldl _update_single_item w l) = self w.
Proof.
  induction l as [|r l IH]; intros w; simpl; [done|].
  by rewrite IH, self_update_single_item.
Qed.

Lemma iter_comm {A} (f : A → A) n x : Nat.iter n f (f x) = f (Nat.iter n f x).
Proof. induction n as [|n IH]; simpl; [done|]. by rewrite IH. Qed.

(** After the loop, an object has been updated once per listing. *)
Lemma heap_visits l : ∀ w r,
  heap (foldl _update_single_item w l) !! r
  = Nat.iter (occurrences r l) (day (_updater_factory (self w)))
      <$> heap w !! r.
Proof.
  induction l as [|x l IH]; intros w r; simpl.
  - by destruct (heap w !! r).
  - rewrite IH, self_update_single_item, heap_update_single_item.
    destruct (Nat.eqb_spec x r) as [->|Hne].
    + rewrite lookup_alter_eq. destruct (heap w !! r) as [it|]; simpl; [|done].
      by rewrite iter_comm.
    + by rewrite lookup_alter_ne.
Qed.

Lemma self_update_quality w : self (update_quality w) = self w.
Proof. apply self_visits. Qed.

Lemma heap_update_quality w r :
  heap (update_quality w) !! r
  = Nat.iter (occurrences r (items (self w))) (day (_updater_factory (self w)))
      <$> heap w !! r.
Proof. apply heap_visits. Qed.

Lemma self_ticks n w : self (ticks n w) = self w.
Proof.
  induction n as [|n IH]; simpl; [done|].
  by rewrite self_update_quality.
Qed.

Lemma iter_add {A} (f : A → A) n m x :
  Nat.iter (n + m) f x = Nat.iter n f (Nat.iter m f x).
Proof. induction n as [|n IH]; simpl; [done|]. by rewrite IH. Qed.

(** After [n] ticks, an object listed [k] times has lived [n * k] days. *)
Lemma heap_ticks n w r :
  heap (ticks n w) !! r
  = Nat.iter (n * occurrences r (items (self w)))
      (day (_updater_factory (self w))) <$> heap w !! r.
Proof.
  induction n as [|n IH]; simpl.
  - by destruct (heap w !! r).
  - rewrite heap_update_quality, self_ticks, IH.
    destruct (heap w !! r) as [it|]; simpl; [|done].
    by rewrite iter_add.
Qed.

(** An object listed once lives one day per tick. *)
Lemma heap_ticks_once n w r it :
  heap w !! r = Some it →
  occurrences r (items (self w)) = 1%nat →
  heap (ticks n w) !! r
  = Some (Nat.iter n (day (_updater_factory (self w))) it).
Proof.
  intros Hr Hocc. rewrite heap_ticks, Hr, Hocc, Nat.mul_1_r. reflexivity.
Qed.

Lemma heap_update_quality_once w r it :
  heap w !! r = Some it →
  occurrences r (items (self w)) = 1%nat →
  heap (update_quality w) !! r = Some (day (_updater_factory (self w)) it).
Proof. intros Hr Hocc. apply (heap_ticks_once 1 w r it Hr Hocc). Qed.

End Loop.

(** ** One day of one item under the built-in registry *)

(** The four ways a name can resolve on the built-in registry. *)
Lemma name_cases nm :
  (nm = AGED_BRIE ∧ ItemUpdaterFactory.get_updater builtin nm = AgedBrieUpdater)
  ∨ (nm = BACKSTAGE ∧ ItemUpdaterFactory.get_updater builtin nm = BackstagePassUpdater)
  ∨ (nm = SULFURAS ∧ ItemUpdaterFactory.get_updater builtin nm = SulfurasUpdater)
  ∨ (nm ≠ AGED_BRIE ∧ nm ≠ BACKSTAGE ∧ nm ≠ SULFURAS
     ∧ ItemUpdaterFactory.get_updater builtin nm = NormalItemUpdater).
Proof.
  destruct (decide (nm = AGED_BRIE)) as [->|H1]; [by left|].
  destruct (decide (nm = BACKSTAGE)) as [->|H2]; [by right; left|].
  destruct (decide (nm = SULFURAS)) as [->|H3]; [by right; right; left|].
  right; right; right. repeat split; try done. by apply get_updater_other.
Qed.

Lemma day_normal it :
  name it ≠ AGED_BRIE → name it ≠ BACKSTAGE → name it ≠ SULFURAS →
  day builtin it
  = mkItem (name it) (sell_in it - 1)
      (if (sell_in it - 1 <? 0)%Z
       then clamp_quality (clamp_quality (quality it - 1) - 1)
       else clamp_quality (quality it - 1)).
Proof.
  intros H1 H2 H3. unfold day. rewrite get_updater_other by done.
  simpl. unfold_updaters. by destruct (sell_in it - 1 <? 0)%Z.
Qed.

Lemma day_aged_brie it :
  name it = AGED_BRIE →
  day builtin it
  = mkItem (name it) (sell_in it - 1)
      (if (sell_in it - 1 <? 0)%Z
       then clamp_quality (clamp_quality (quality it + 1) + 1)
       else clamp_quality (quality it + 1)).
Proof.
  intros H. unfold day.
  replace (ItemUpdaterFactory.get_updater builtin (name it))
    with AgedBrieUpdater by (by rewrite H).
  simpl. unfold_updaters. by destruct (sell_in it - 1 <? 0)%Z.
Qed.

Lemma day_backstage it :
  name it = BACKSTAGE →
  day builtin it
  = mkItem (name it) (sell_in it - 1)
      (if (sell_in it - 1 <? 0)%Z
       then 0%Z
       else clamp_quality
              (quality it
               + BackstagePassUpdater._calculate_quality_increase (sell_in it))).
Proof.
  intros H. unfold day.
  replace (ItemUpdaterFactory.get_updater builtin (name it))
    with BackstagePassUpdater by (by rewrite H).
  simpl. unfold_updaters. by destruct (sell_in it - 1 <? 0)%Z.
Qed.

Lemma day_sulfuras it : name it = SULFURAS → day builtin it = it.
Proof. intros H. unfold day. by rewrite H, get_updater_sulfuras. Qed.

(** No built-in strategy writes the name. *)
Lemma day_name it : name (day builtin it) = name it.
Proof.
  destruct (name_cases (name it)) as [[H _]|[[H _]|[[H _]|(H1 & H2 & H3 & _)]]].
  - by rewrite day_aged_brie.
  - by rewrite day_backstage.
  - by rewrite day_sulfuras.
  - by rewrite day_normal.
Qed.

Lemma day_sell_in it :
  name it ≠ SULFURAS → sell_in (day builtin it) = (sell_in it - 1)%Z.
Proof.
  intros Hs.
  destruct (name_cases (name it)) as [[H _]|[[H _]|[[H _]|(H1 & H2 & H3 & _)]]].
  - by rewrite day_aged_brie.
  - by rewrite day_backstage.
  - done.
  - by rewrite day_normal.
Qed.

(** Whatever the quality before, a day of a non-legendary item ends with a
    quality within bounds. *)
Lemma day_quality_in_range it :
  name it ≠ SULFURAS → in_range (quality (day builtin it)).
Proof.
  intros Hs.
  destruct (name_cases (name it)) as [[H _]|[[H _]|[[H _]|(H1 & H2 & H3 & _)]]].
  - rewrite day_aged_brie by done. simpl.
    destruct (sell_in it - 1 <? 0)%Z; apply clamp_quality_in_range.
  - rewrite day_backstage by done. simpl.
    destruct (sell_in it - 1 <? 0)%Z; [|apply clamp_quality_in_range].
    unfold in_range, MINIMUM_QUALITY, MAXIMUM_QUALITY. lia.
  - done.
  - rewrite day_normal by done. simpl.
    destruct (sell_in it - 1 <? 0)%Z; apply clamp_quality_in_range.
Qed.

Lemma days_name n it : name (Nat.iter n (day builtin) it) = name it.
Proof. induction n as [|n IH]; simpl; [done|]. by rewrite day_name. Qed.

Lemma days_sell_in n it :
  name it ≠ SULFURAS →
  sell_in (Nat.iter n (day builtin) it) = (sell_in it - Z.of_nat n)%Z.
Proof.
  intros Hs. induction n as [|n IH].
  - simpl. lia.
  - rewrite Nat.iter_succ, day_sell_in by (by rewrite days_name). lia.
Qed.

Lemma days_sulfuras n it :
  name it = SULFURAS → Nat.iter n (day builtin) it = it.
Proof.
  intros Hs. induction n as [|n IH]; simpl; [done|].
  rewrite IH. by apply day_sulfuras.
Qed.

Lemma days_quality_in_range n it :
  name it ≠ SULFURAS → (0 < n)%nat →
  in_range (quality (Nat.iter n (day builtin) it)).
Proof.
  intros Hs Hn. destruct n as [|n]; [lia|].
  rewrite Nat.iter_succ. apply day_quality_in_range. by rewrite days_name.
Qed.

Lemma occurrences_elem_of r l : r ∈ l → (0 < occurrences r l)%nat.
Proof.
  induction 1 as [x l|x y l _ IH]; simpl.
  - rewrite Nat.eqb_refl. lia.
  - lia.
Qed.

Lemma occurrences_not_elem_of r l : r ∉ l → occurrences r l = 0%nat.
Proof.
  induction l as [|x l IH]; intros Hnot; simpl; [done|].
  destruct (Nat.eqb_spec x r) as [->|Hne].
  - exfalso. apply Hnot. left.
  - rewrite IH; [done|]. intros Hin. apply Hnot. by right.
Qed.

Lemma occurrences_NoDup r l : NoDup l → r ∈ l → occurrences r l = 1%nat.
Proof.
  induction 1 as [|x l Hx Hnd IH]; intros Hin.
  - by apply not_elem_of_nil in Hin.
  - simpl. destruct (Nat.eqb_spec x r) as [->|Hne].
    + by rewrite occurrences_not_elem_of.
    + apply elem_of_cons in Hin as [->|Hin]; [done|]. by rewrite IH.
Qed.

(** ** Quality bounds *)

(** C1.  An item of a non-legendary built-in category whose quality starts
    within [0, 50] still has a quality within [0, 50] after any number of
    calls of [GildedRose.update_quality]. *)
Theorem quality_stays_in_range
    (items : list loc) (h : gmap loc Item) (r : loc) (it : Item) (n : nat) :
  h !! r = Some it →
  name it ≠ SULFURAS →
  (0 ≤ quality it ≤ 50)%Z →
  ∃ it', GildedRose.heap (ticks n (GildedRose.__init__ items h)) !! r = Some it'
         ∧ (0 ≤ quality it' ≤ 50)%Z.
Proof.
  intros Hr Hs Hq. rewrite heap_ticks. simpl. rewrite Hr. simpl.
  eexists; split; [reflexivity|].
  destruct (n * occurrences r items)%nat as [|m] eqn:E; [done|].
  apply (days_quality_in_range (S m) it Hs). lia.
Qed.

Lemma quality_stays_in_range_witness :
  ∃ it', GildedRose.heap
           (ticks 5 (GildedRose.__init__ [0%nat]
                       {[0%nat := mkItem "Aged Brie" 2 49]})) !! 0%nat = Some it'
         ∧ (0 ≤ quality it' ≤ 50)%Z.
Proof.
  apply (quality_stays_in_range [0%nat] {[0%nat := mkItem "Aged Brie" 2 49]}
           0%nat (mkItem "Aged Brie" 2 49) 5).
  - reflexivity.
  - discriminate.
  - simpl. lia.
Defined.

(** C10.  An item of a non-legendary built-in category that is in the
    collection has a quality within [0, 50] after at least one call of
    [GildedRose.update_quality], whatever quality it was constructed with:
    the quality step of the three strategies writes a clamped value, and
    their sell-in step leaves the quality alone, writes a clamped value or
    writes 0. *)
Theorem first_tick_normalizes_quality :
  (∀ (items : list loc) (h : gmap loc Item) (r : loc) (it : Item) (n : nat),
     h !! r = Some it →
     name it ≠ SULFURAS →
     r ∈ items →
     (1 ≤ n)%nat →
     ∃ it', GildedRose.heap (ticks n (GildedRose.__init__ items h)) !! r = Some it'
            ∧ (0 ≤ quality it' ≤ 50)%Z)
  ∧ (∀ u : QualityUpdater,
       u ∈ [NormalItemUpdater; AgedBrieUpdater; BackstagePassUpdater] →
       ∀ it : Item,
         (∃ v, quality (update_quality u it) = clamp_quality v)
         ∧ (quality (update_sell_in u it) = quality it
            ∨ (∃ v, quality (update_sell_in u it) = clamp_quality v)
            ∨ quality (update_sell_in u it) = 0%Z)).
Proof.
  split.
  - intros items h r it n Hr Hs Hin Hn.
    rewrite heap_ticks. simpl. rewrite Hr. simpl.
    eexists; split; [reflexivity|].
    apply (days_quality_in_range _ it Hs).
    apply occurrences_elem_of in Hin. nia.
  - intros u Hu it.
    apply elem_of_cons in Hu as [->|Hu];
      [|apply elem_of_cons in Hu as [->|Hu];
        [|apply list_elem_of_singleton in Hu as ->]];
      simpl; unfold_updaters.
    + split; [eauto|]. destruct (sell_in it - 1 <? 0)%Z; simpl; eauto.
    + split; [eauto|]. destruct (sell_in it - 1 <? 0)%Z; simpl; eauto.
    + split; [eauto|]. destruct (sell_in it - 1 <? 0)%Z; simpl; eauto.
Qed.

Lemma first_tick_normalizes_quality_witness :
  ∃ it', GildedRose.heap
           (ticks 1 (GildedRose.__init__ [0%nat]
                       {[0%nat := mkItem "Normal Item" 3 75]})) !! 0%nat = Some it'
         ∧ (0 ≤ quality it' ≤ 50)%Z.
Proof.
  apply (proj1 first_tick_normalizes_quality
           [0%nat] {[0%nat := mkItem "Normal Item" 3 75]}
           0%nat (mkItem "Normal Item" 3 75) 1%nat).
  - reflexivity.
  - discriminate.
  - apply list_elem_of_here.
  - lia.
Defined.

(** ** The legendary item *)

(** C4.  An item named 'Sulfuras, Hand of Ragnaros' keeps its quality and
    its sell_in through any number of calls of [GildedRose.update_quality],
    whatever their values; Item('Sulfuras, Hand of Ragnaros', 5, 80) still
    has sell_in 5 and quality 80 after any number of ticks. *)
Theorem sulfuras_never_changes :
  (∀ (items : list loc) (h : gmap loc Item) (r : loc) (it : Item) (n : nat),
     h !! r = Some it →
     name it = SULFURAS →
     GildedRose.heap (ticks n (GildedRose.__init__ items h)) !! r = Some it)
  ∧ (∀ n : nat,
       GildedRose.heap
         (ticks n (GildedRose.__init__ [0%nat]
                     {[0%nat := mkItem "Sulfuras, Hand of Ragnaros" 5 80]})) !! 0%nat
       = Some (mkItem "Sulfuras, Hand of Ragnaros" 5 80)).
Proof.
  assert (∀ (items : list loc) (h : gmap loc Item) (r : loc) (it : Item) (n : nat),
     h !! r = Some it → name it = SULFURAS →
     GildedRose.heap (ticks n (GildedRose.__init__ items h)) !! r = Some it) as G.
  { intros items h r it n Hr Hs. rewrite heap_ticks. simpl. rewrite Hr. simpl.
    by rewrite days_sulfuras. }
  split; [exact G|]. intros n. by apply G.
Qed.

Lemma sulfuras_never_changes_witness :
  GildedRose.heap
    (ticks 7 (GildedRose.__init__ [0%nat; 1%nat]
                {[0%nat := mkItem "Sulfuras, Hand of Ragnaros" (-3) 80;
                  1%nat := mkItem "Aged Brie" 4 10]})) !! 0%nat
  = Some (mkItem "Sulfuras, Hand of Ragnaros" (-3) 80).
Proof.
  apply (proj1 sulfuras_never_changes).
  - reflexivity.
  - reflexivity.
Defined.

(** ** The sell-in counter *)

(** C7.  For an item of the collection that is not legendary, every call of
    [GildedRose.update_quality] decreases sell_in by exactly 1, whatever its
    value: after [n] ticks it is the initial value minus [n], and it falls
    below any bound. *)
Theorem sell_in_decreases_by_one
    (items : list loc) (h : gmap loc Item) (r : loc) (it : Item) :
  h !! r = Some it →
  name it ≠ SULFURAS →
  occurrences r items = 1%nat →
  (∀ n : nat,
     ∃ it', GildedRose.heap (ticks n (GildedRose.__init__ items h)) !! r = Some it'
            ∧ sell_in it' = (sell_in it - Z.of_nat n)%Z)
  ∧ (∀ n : nat,
       ∃ a b, GildedRose.heap (ticks n (GildedRose.__init__ items h)) !! r = Some a
              ∧ GildedRose.heap
                  (GildedRose.update_quality
                     (ticks n (GildedRose.__init__ items h))) !! r = Some b
              ∧ sell_in b = (sell_in a - 1)%Z)
  ∧ (∀ bound : Z,
       ∃ n it', GildedRose.heap (ticks n (GildedRose.__init__ items h)) !! r = Some it'
                ∧ (sell_in it' < bound)%Z).
Proof.
  intros Hr Hs Hocc.
  assert (∀ n : nat,
     GildedRose.heap (ticks n (GildedRose.__init__ items h)) !! r
     = Some (Nat.iter n (day builtin) it)) as G.
  { intros n. by rewrite (heap_ticks_once n _ r it). }
  split; [|split].
  - intros n. eexists; split; [apply G|]. by apply days_sell_in.
  - intros n. exists (Nat.iter n (day builtin) it), (Nat.iter (S n) (day builtin) it).
    split; [apply G|]. split; [apply (G (S n))|].
    rewrite !days_sell_in by done. lia.
  - intros bound. exists (Z.to_nat (sell_in it - bound + 1)).
    eexists; split; [apply G|]. rewrite days_sell_in by done. lia.
Qed.

Lemma sell_in_decreases_by_one_witness :
  ∃ it', GildedRose.heap
           (ticks 12 (GildedRose.__init__ [0%nat]
                        {[0%nat := mkItem "Normal Item" 2 30]})) !! 0%nat = Some it'
         ∧ sell_in it' = (-10)%Z.
Proof.
  refine (proj1 (sell_in_decreases_by_one [0%nat]
                   {[0%nat := mkItem "Normal Item" 2 30]}
                   0%nat (mkItem "Normal Item" 2 30) _ _ _) 12%nat).
  - reflexivity.
  - discriminate.
  - reflexivity.
Defined.

(** ** The three non-legendary categories, one tick at a time *)

(** C5.  A generic item (a name outside the registry) listed in the
    collection: one tick writes [clamp_quality (quality - 1)], decrements
    sell_in, and writes [clamp_quality (quality - 1)] once more when the
    decremented sell_in is negative, where [clamp_quality q] is
    [max 0 (min q 50)]: the quality after the tick lies in [0, 50], it is
    1 less (2 less per day past due) where the clamp does not bite, it is 0
    from a quality of at most 1 (at most 2 past due) and 50 from a quality
    of at least 51 before the due date.  Item('Normal Item', 10, 20)
    becomes (9, 19), Item('Normal Item', -1, 10) becomes (-2, 8),
    Item('Normal Item', 10, 0) becomes (9, 0) and Item('Normal Item', -1,
    1) becomes (-2, 0). *)
Theorem normal_item_one_tick :
  (∀ it : Item,
     update_quality NormalItemUpdater it
     = mkItem (name it) (sell_in it) (clamp_quality (quality it - 1)))
  ∧ (∀ it : Item,
       update_sell_in NormalItemUpdater it
       = mkItem (name it) (sell_in it - 1)
           (if (sell_in it - 1 <? 0)%Z
            then clamp_quality (quality it - 1) else quality it))
  ∧ (∀ (items : list loc) (h : gmap loc Item) (r : loc) (it : Item),
       h !! r = Some it →
       name it ≠ AGED_BRIE → name it ≠ BACKSTAGE → name it ≠ SULFURAS →
       occurrences r items = 1%nat →
       GildedRose.heap (GildedRose.update_quality (GildedRose.__init__ items h)) !! r
       = Some (mkItem (name it) (sell_in it - 1)
                 (if (sell_in it - 1 <? 0)%Z
                  then clamp_quality (clamp_quality (quality it - 1) - 1)
                  else clamp_quality (quality it - 1))))
  ∧ (∀ q : Z, (1 ≤ q ≤ 50)%Z → clamp_quality (q - 1) = (q - 1)%Z)
  ∧ (∀ q : Z, (2 ≤ q ≤ 50)%Z →
       clamp_quality (clamp_quality (q - 1) - 1) = (q - 2)%Z)
  ∧ GildedRose.heap
      (GildedRose.update_quality
         (GildedRose.__init__ [0%nat] {[0%nat := mkItem "Normal Item" 10 20]})) !! 0%nat
    = Some (mkItem "Normal Item" 9 19)
  ∧ GildedRose.heap
      (GildedRose.update_quality
         (GildedRose.__init__ [0%nat] {[0%nat := mkItem "Normal Item" (-1) 10]})) !! 0%nat
    = Some (mkItem "Normal Item" (-2) 8)
  ∧ (∀ q : Z, clamp_quality q = Z.max 0 (Z.min q 50)
              ∧ (0 ≤ clamp_quality q ≤ 50)%Z)
  ∧ (∀ (items : list loc) (h : gmap loc Item) (r : loc) (it : Item),
       h !! r = Some it →
       name it ≠ AGED_BRIE → name it ≠ BACKSTAGE → name it ≠ SULFURAS →
       occurrences r items = 1%nat →
       ∃ q' : Z,
         GildedRose.heap
           (GildedRose.update_quality (GildedRose.__init__ items h)) !! r
         = Some (mkItem (name it) (sell_in it - 1) q')
         ∧ (0 ≤ q' ≤ 50)%Z
         ∧ q' = (if (sell_in it - 1 <? 0)%Z
                 then Z.max 0 (Z.min (quality it - 1) 50 - 1)
                 else Z.max 0 (Z.min (quality it - 1) 50)))
  ∧ (∀ q : Z, (q ≤ 1)%Z → clamp_quality (q - 1) = 0%Z)
  ∧ (∀ q : Z, (q ≤ 2)%Z → clamp_quality (clamp_quality (q - 1) - 1) = 0%Z)
  ∧ (∀ q : Z, (51 ≤ q)%Z →
       clamp_quality (q - 1) = 50%Z
       ∧ clamp_quality (clamp_quality (q - 1) - 1) = 49%Z)
  ∧ GildedRose.heap
      (GildedRose.update_quality
         (GildedRose.__init__ [0%nat] {[0%nat := mkItem "Normal Item" 10 0]})) !! 0%nat
    = Some (mkItem "Normal Item" 9 0)
  ∧ GildedRose.heap
      (GildedRose.update_quality
         (GildedRose.__init__ [0%nat] {[0%nat := mkItem "Normal Item" (-1) 1]})) !! 0%nat
    = Some (mkItem "Normal Item" (-2) 0)
  ∧ GildedRose.heap
      (GildedRose.update_quality
         (GildedRose.__init__ [0%nat] {[0%nat := mkItem "Normal Item" 10 75]})) !! 0%nat
    = Some (mkItem "Normal Item" 9 50).
Proof.
  split; [reflexivity|].
  split; [intros it; simpl; unfold_updaters; by destruct (sell_in it - 1 <? 0)%Z|].
  split.
  { intros items h r it Hr H1 H2 H3 Hocc.
    rewrite (heap_update_quality_once (GildedRose.__init__ items h) r it Hr Hocc).
    simpl. by rewrite day_normal. }
  split; [intros q Hq; unfold clamp_quality, MINIMUM_QUALITY, MAXIMUM_QUALITY; lia|].
  split; [intros q Hq; unfold clamp_quality, MINIMUM_QUALITY, MAXIMUM_QUALITY; lia|].
  split; [reflexivity|]. split; [reflexivity|].
  split; [intros q; unfold clamp_quality, MINIMUM_QUALITY, MAXIMUM_QUALITY; lia|].
  split.
  { intros items h r it Hr H1 H2 H3 Hocc.
    rewrite (heap_update_quality_once (GildedRose.__init__ items h) r it Hr Hocc).
    simpl. rewrite day_normal by done.
    eexists; split; [reflexivity|].
    unfold clamp_quality, MINIMUM_QUALITY, MAXIMUM_QUALITY.
    destruct (sell_in it - 1 <? 0)%Z; lia. }
  split; [intros q Hq; unfold clamp_quality, MINIMUM_QUALITY, MAXIMUM_QUALITY; lia|].
  split; [intros q Hq; unfold clamp_quality, MINIMUM_QUALITY, MAXIMUM_QUALITY; lia|].
  split; [intros q Hq; unfold clamp_quality, MINIMUM_QUALITY, MAXIMUM_QUALITY; lia|].
  split; [reflexivity|]. split; reflexivity.
Qed.

Lemma normal_item_one_tick_witness :
  GildedRose.heap
    (GildedRose.update_quality
       (GildedRose.__init__ [0%nat; 1%nat]
          {[0%nat := mkItem "Elixir of the Mongoose" 0 7;
            1%nat := mkItem "Aged Brie" 2 0]})) !! 0%nat
  = Some (mkItem "Elixir of the Mongoose" (-1) 5)
  ∧ clamp_quality (clamp_quality (7 - 1) - 1) = (7 - 2)%Z
  ∧ (∃ q' : Z,
       GildedRose.heap
         (GildedRose.update_quality
            (GildedRose.__init__ [0%nat]
               {[0%nat := mkItem "Elixir of the Mongoose" 0 1]})) !! 0%nat
       = Some (mkItem "Elixir of the Mongoose" (0 - 1) q')
       ∧ (0 ≤ q' ≤ 50)%Z
       ∧ q' = (if (0 - 1 <? 0)%Z
               then Z.max 0 (Z.min (1 - 1) 50 - 1)
               else Z.max 0 (Z.min (1 - 1) 50)))
  ∧ clamp_quality (0 - 1) = 0%Z
  ∧ clamp_quality (clamp_quality (1 - 1) - 1) = 0%Z
  ∧ clamp_quality (75 - 1) = 50%Z.
Proof.
  split; [|split; [|split; [|split; [|split]]]].
  - refine (proj1 (proj2 (proj2 normal_item_one_tick))
              [0%nat; 1%nat]
              {[0%nat := mkItem "Elixir of the Mongoose" 0 7;
                1%nat := mkItem "Aged Brie" 2 0]}
              0%nat (mkItem "Elixir of the Mongoose" 0 7) _ _ _ _ _).
    + reflexivity.
    + discriminate.
    + discriminate.
    + discriminate.
    + reflexivity.
  - apply (proj1 (proj2 (proj2 (proj2 (proj2 normal_item_one_tick)))) 7%Z). lia.
  - refine (proj1 (proj2 (proj2 (proj2 (proj2 (proj2 (proj2 (proj2 (proj2
              normal_item_one_tick))))))))
              [0%nat] {[0%nat := mkItem "Elixir of the Mongoose" 0 1]}
              0%nat (mkItem "Elixir of the Mongoose" 0 1) _ _ _ _ _).
    + reflexivity.
    + discriminate.
    + discriminate.
    + discriminate.
    + reflexivity.
  - apply (proj1 (proj2 (proj2 (proj2 (proj2 (proj2 (proj2 (proj2 (proj2 (proj2
             normal_item_one_tick))))))))) 0%Z). lia.
  - apply (proj1 (proj2 (proj2 (proj2 (proj2 (proj2 (proj2 (proj2 (proj2 (proj2
             (proj2 normal_item_one_tick)))))))))) 1%Z). lia.
  - refine (proj1 (proj1 (proj2 (proj2 (proj2 (proj2 (proj2 (proj2 (proj2 (proj2
              (proj2 (proj2 (proj2 normal_item_one_tick))))))))))) 75%Z _)).
    lia.
Defined.

(** C6.  An item named 'Aged Brie' listed in the collection: one tick
    writes [clamp_quality (quality + 1)], decrements sell_in, and writes
    [clamp_quality (quality + 1)] once more when the decremented sell_in is
    negative, which is 2 more per day past due where the clamp does not
    bite, and never more than 50.  Item('Aged Brie', 10, 50) becomes
    (9, 50). *)
Theorem aged_brie_one_tick :
  (∀ it : Item,
     update_quality AgedBrieUpdater it
     = mkItem (name it) (sell_in it) (clamp_quality (quality it + 1)))
  ∧ (∀ it : Item,
       update_sell_in AgedBrieUpdater it
       = mkItem (name it) (sell_in it - 1)
           (if (sell_in it - 1 <? 0)%Z
            then clamp_quality (quality it + 1) else quality it))
  ∧ (∀ (items : list loc) (h : gmap loc Item) (r : loc) (it : Item),
       h !! r = Some it →
       name it = AGED_BRIE →
       occurrences r items = 1%nat →
       ∃ q' : Z,
         GildedRose.heap
           (GildedRose.update_quality (GildedRose.__init__ items h)) !! r
         = Some (mkItem AGED_BRIE (sell_in it - 1) q')
         ∧ q' = (if (sell_in it - 1 <? 0)%Z
                 then clamp_quality (clamp_quality (quality it + 1) + 1)
                 else clamp_quality (quality it + 1))
         ∧ (q' ≤ 50)%Z)
  ∧ (∀ q : Z, (0 ≤ q ≤ 49)%Z → clamp_quality (q + 1) = (q + 1)%Z)
  ∧ (∀ q : Z, (0 ≤ q ≤ 48)%Z →
       clamp_quality (clamp_quality (q + 1) + 1) = (q + 2)%Z)
  ∧ GildedRose.heap
      (GildedRose.update_quality
         (GildedRose.__init__ [0%nat] {[0%nat := mkItem "Aged Brie" 10 50]})) !! 0%nat
    = Some (mkItem "Aged Brie" 9 50).
Proof.
  repeat split.
  - intros it. simpl. unfold_updaters. by destruct (sell_in it - 1 <? 0)%Z.
  - intros items h r it Hr Hn Hocc.
    rewrite (heap_update_quality_once (GildedRose.__init__ items h) r it Hr Hocc). simpl.
    rewrite day_aged_brie by done. rewrite Hn.
    eexists; split; [reflexivity|]. split; [reflexivity|].
    destruct (sell_in it - 1 <? 0)%Z;
      match goal with |- (clamp_quality ?v ≤ _)%Z =>
        pose proof (clamp_quality_in_range v) as Hc end;
      unfold in_range, MAXIMUM_QUALITY in Hc; lia.
  - intros q Hq. unfold clamp_quality, MINIMUM_QUALITY, MAXIMUM_QUALITY. lia.
  - intros q Hq. unfold clamp_quality, MINIMUM_QUALITY, MAXIMUM_QUALITY. lia.
Qed.

Lemma aged_brie_one_tick_witness :
  (∃ q' : Z,
     GildedRose.heap
       (GildedRose.update_quality
          (GildedRose.__init__ [0%nat] {[0%nat := mkItem "Aged Brie" (-2) 49]})) !! 0%nat
     = Some (mkItem AGED_BRIE (-2 - 1) q')
     ∧ q' = (if (-2 - 1 <? 0)%Z
             then clamp_quality (clamp_quality (49 + 1) + 1)
             else clamp_quality (49 + 1))
     ∧ (q' ≤ 50)%Z)
  ∧ clamp_quality (clamp_quality (10 + 1) + 1) = (10 + 2)%Z.
Proof.
  split.
  - refine (proj1 (proj2 (proj2 aged_brie_one_tick))
              [0%nat] {[0%nat := mkItem "Aged Brie" (-2) 49]}
              0%nat (mkItem "Aged Brie" (-2) 49) _ _ _).
    + reflexivity.
    + reflexivity.
    + reflexivity.
  - apply (proj1 (proj2 (proj2 (proj2 (proj2 aged_brie_one_tick)))) 10%Z). lia.
Defined.



(** C2.  The sell-in step of a backstage pass decrements sell_in and, when
    the decremented value is negative, writes quality 0, whatever the
    quality step of the same tick had written.
    Item('Backstage passes to a TAFKAL80ETC concert', 0, 25) becomes
    (-1, 0). *)
Theorem backstage_hard_reset :
  (∀ it : Item,
     update_sell_in BackstagePassUpdater it
     = mkItem (name it) (sell_in it - 1)
         (if (sell_in it - 1 <? 0)%Z then 0%Z else quality it))
  ∧ (∀ (items : list loc) (h : gmap loc Item) (r : loc) (it : Item),
       h !! r = Some it →
       name it = BACKSTAGE →
       occurrences r items = 1%nat →
       (sell_in it - 1 < 0)%Z →
       GildedRose.heap (GildedRose.update_quality (GildedRose.__init__ items h)) !! r
       = Some (mkItem BACKSTAGE (sell_in it - 1) 0))
  ∧ update_quality BackstagePassUpdater
      (mkItem "Backstage passes to a TAFKAL80ETC concert" 0 25)
    = mkItem "Backstage passes to a TAFKAL80ETC concert" 0 28
  ∧ GildedRose.heap
      (GildedRose.update_quality
         (GildedRose.__init__ [0%nat]
            {[0%nat := mkItem "Backstage passes to a TAFKAL80ETC concert" 0 25]}))
      !! 0%nat
    = Some (mkItem "Backstage passes to a TAFKAL80ETC concert" (-1) 0).
Proof.
  split; [|split; [|split]].
  - intros it. simpl. unfold_updaters. by destruct (sell_in it - 1 <? 0)%Z.
  - intros items h r it Hr Hn Hocc Hd.
    rewrite (heap_update_quality_once (GildedRose.__init__ items h) r it Hr Hocc).
    simpl. rewrite day_backstage by done. rewrite Hn.
    destruct (Z.ltb_spec (sell_in it - 1) 0); [done|lia].
  - reflexivity.
  - reflexivity.
Qed.

Lemma backstage_hard_reset_witness :
  GildedRose.heap
    (GildedRose.update_quality
       (GildedRose.__init__ [3%nat]
          {[3%nat := mkItem "Backstage passes to a TAFKAL80ETC concert" (-4) 17]}))
    !! 3%nat
  = Some (mkItem BACKSTAGE (-4 - 1) 0).
Proof.
  refine (proj1 (proj2 backstage_hard_reset)
            [3%nat]
            {[3%nat := mkItem "Backstage passes to a TAFKAL80ETC concert" (-4) 17]}
            3%nat (mkItem "Backstage passes to a TAFKAL80ETC concert" (-4) 17)
            _ _ _ _).
  - reflexivity.
  - reflexivity.
  - reflexivity.
  - simpl. lia.
Defined.

(** ** The strategy selector *)

(** The four built-in strategies are four different behaviours. *)
Lemma builtin_updaters_distinct :
  NormalItemUpdater ≠ AgedBrieUpdater
  ∧ NormalItemUpdater ≠ BackstagePassUpdater
  ∧ NormalItemUpdater ≠ SulfurasUpdater
  ∧ AgedBrieUpdater ≠ BackstagePassUpdater
  ∧ AgedBrieUpdater ≠ SulfurasUpdater
  ∧ BackstagePassUpdater ≠ SulfurasUpdater.
Proof.
  pose (probe := λ u : QualityUpdater,
          let i := mkItem "x" 3 10 in
          (quality (update_quality u i), sell_in (update_sell_in u i))).
  repeat split; intros E; apply (f_equal probe) in E; discriminate E.
Qed.

(** C8.  [get_updater] resolves a name by lookup in the registry: the
    three registered names give their strategy, every other name, case
    variants of the registered names included, gives the generic strategy,
    and after [register_strategy name strategy] the name resolves to that
    strategy, whether it was bound before or not, while the other names
    resolve as before. *)
Theorem factory_resolution :
  ItemUpdaterFactory.get_updater builtin "Aged Brie" = AgedBrieUpdater
  ∧ ItemUpdaterFactory.get_updater builtin
      "Backstage passes to a TAFKAL80ETC concert" = BackstagePassUpdater
  ∧ ItemUpdaterFactory.get_updater builtin
      "Sulfuras, Hand of Ragnaros" = SulfurasUpdater
  ∧ (∀ nm : string,
       nm ≠ "Aged Brie" →
       nm ≠ "Backstage passes to a TAFKAL80ETC concert" →
       nm ≠ "Sulfuras, Hand of Ragnaros" →
       ItemUpdaterFactory._strategies builtin !! nm = None
       ∧ ItemUpdaterFactory.get_updater builtin nm = NormalItemUpdater)
  ∧ ItemUpdaterFactory.get_updater builtin "aged brie" = NormalItemUpdater
  ∧ ItemUpdaterFactory.get_updater builtin "AGED BRIE" = NormalItemUpdater
  ∧ ItemUpdaterFactory.get_updater builtin
      "backstage passes to a tafkal80etc concert" = NormalItemUpdater
  ∧ ItemUpdaterFactory.get_updater builtin
      "Sulfuras, hand of Ragnaros" = NormalItemUpdater
  ∧ (∀ (f : ItemUpdaterFactory.t) (nm : string) (u : QualityUpdater),
       ItemUpdaterFactory.get_updater
         (ItemUpdaterFactory.register_strategy f nm u) nm = u)
  ∧ (∀ (f : ItemUpdaterFactory.t) (nm nm' : string) (u : QualityUpdater),
       nm ≠ nm' →
       ItemUpdaterFactory.get_updater
         (ItemUpdaterFactory.register_strategy f nm u) nm'
       = ItemUpdaterFactory.get_updater f nm').
Proof.
  repeat split.
  - unfold ItemUpdaterFactory.__init__; simpl.
    rewrite !lookup_insert_ne by congruence. apply lookup_empty.
  - by apply get_updater_other.
  - intros f nm u. unfold ItemUpdaterFactory.get_updater,
      ItemUpdaterFactory.register_strategy; simpl.
    by rewrite lookup_insert_eq.
  - intros f nm nm' u Hne. unfold ItemUpdaterFactory.get_updater,
      ItemUpdaterFactory.register_strategy; simpl.
    by rewrite lookup_insert_ne.
Qed.

Lemma factory_resolution_witness :
  ItemUpdaterFactory.get_updater builtin "Conjured Mana Cake" = NormalItemUpdater
  ∧ ItemUpdaterFactory.get_updater
      (ItemUpdaterFactory.register_strategy builtin "Aged Brie" SulfurasUpdater)
      "Sulfuras, Hand of Ragnaros"
    = ItemUpdaterFactory.get_updater builtin "Sulfuras, Hand of Ragnaros".
Proof.
  split.
  - refine (proj2 (proj1 (proj2 (proj2 (proj2 factory_resolution)))
                     "Conjured Mana Cake" _ _ _)); discriminate.
  - refine (proj2 (proj2 (proj2 (proj2 (proj2 (proj2 (proj2 (proj2
              (proj2 factory_resolution))))))))
              builtin "Aged Brie" "Sulfuras, Hand of Ragnaros" SulfurasUpdater _).
    discriminate.
Defined.

(** ** The inventory loop *)

Lemma dom_visits l : ∀ w,
  dom (GildedRose.heap (foldl GildedRose._update_single_item w l))
  = dom (GildedRose.heap w).
Proof.
  induction l as [|x l IH]; intros w; simpl; [done|].
  by rewrite IH, heap_update_single_item, dom_alter_L.
Qed.

(** One object listed twice is visited twice in one tick. *)
Example listed_twice :
  GildedRose.heap
    (GildedRose.update_quality
       (GildedRose.__init__ [0%nat; 0%nat]
          {[0%nat := mkItem "Normal Item" 10 20]})) !! 0%nat
  = Some (mkItem "Normal Item" 8 18).
Proof. reflexivity. Qed.

(** In a collection without repetition every listed item lives one day. *)
Lemma heap_update_quality_NoDup items h r it :
  NoDup items → r ∈ items → h !! r = Some it →
  GildedRose.heap (GildedRose.update_quality (GildedRose.__init__ items h)) !! r
  = Some (day builtin it).
Proof.
  intros Hnd Hin Hr.
  apply (heap_update_quality_once (GildedRose.__init__ items h) r it Hr).
  by apply occurrences_NoDup.
Qed.

(** C9.  [GildedRose.update_quality] visits the collection from first to
    last; a visit rewrites the visited object from its own fields and
    touches nothing else; the collection and the set of objects are the
    same afterwards, as is every name; what an object becomes depends only
    on its own fields and on how often it is listed, not on the other
    items; on the empty collection nothing changes. *)
Theorem update_quality_frame :
  (∀ (w : GildedRose.World) (l1 l2 : list loc) (r : loc),
     GildedRose.items (GildedRose.self w) = l1 ++ r :: l2 →
     GildedRose.update_quality w
     = foldl GildedRose._update_single_item
         (GildedRose._update_single_item
            (foldl GildedRose._update_single_item w l1) r) l2)
  ∧ (∀ (w : GildedRose.World) (r : loc),
       GildedRose.self (GildedRose._update_single_item w r) = GildedRose.self w
       ∧ GildedRose.heap (GildedRose._update_single_item w r)
         = alter (day (GildedRose._updater_factory (GildedRose.self w))) r
             (GildedRose.heap w))
  ∧ (∀ w : GildedRose.World,
       GildedRose.items (GildedRose.self (GildedRose.update_quality w))
       = GildedRose.items (GildedRose.self w)
       ∧ dom (GildedRose.heap (GildedRose.update_quality w))
         = dom (GildedRose.heap w))
  ∧ (∀ (items : list loc) (h : gmap loc Item) (r : loc),
       name <$> GildedRose.heap
                  (GildedRose.update_quality (GildedRose.__init__ items h)) !! r
       = name <$> h !! r)
  ∧ (∀ (items1 items2 : list loc) (h1 h2 : gmap loc Item) (r : loc),
       h1 !! r = h2 !! r →
       occurrences r items1 = occurrences r items2 →
       GildedRose.heap
         (GildedRose.update_quality (GildedRose.__init__ items1 h1)) !! r
       = GildedRose.heap
           (GildedRose.update_quality (GildedRose.__init__ items2 h2)) !! r)
  ∧ (∀ (items : list loc) (h : gmap loc Item) (r : loc) (it : Item),
       h !! r = Some it →
       occurrences r items = 1%nat →
       GildedRose.heap
         (GildedRose.update_quality (GildedRose.__init__ items h)) !! r
       = Some (day builtin it))
  ∧ (∀ (items : list loc) (h : gmap loc Item) (r : loc),
       r ∉ items →
       GildedRose.heap
         (GildedRose.update_quality (GildedRose.__init__ items h)) !! r
       = h !! r)
  ∧ (∀ h : gmap loc Item,
       GildedRose.update_quality (GildedRose.__init__ [] h)
       = GildedRose.__init__ [] h).
Proof.
  split; [|split; [|split; [|split; [|split; [|split; [|split]]]]]].
  - intros w l1 l2 r Hl. unfold GildedRose.update_quality.
    by rewrite Hl, foldl_app.
  - intros w r. split;
      [apply self_update_single_item | apply heap_update_single_item].
  - intros w. split.
    + by rewrite self_update_quality.
    + apply dom_visits.
  - intros items h r. rewrite heap_update_quality. simpl.
    destruct (h !! r) as [it|]; simpl; [|done]. by rewrite days_name.
  - intros items1 items2 h1 h2 r Hh Hocc.
    rewrite !heap_update_quality. simpl. by rewrite Hh, Hocc.
  - intros items h r it Hr Hocc.
    apply (heap_update_quality_once (GildedRose.__init__ items h) r it Hr Hocc).
  - intros items h r Hnot. rewrite heap_update_quality. simpl.
    rewrite occurrences_not_elem_of by done. by destruct (h !! r).
  - reflexivity.
Qed.

Lemma update_quality_frame_witness :
  GildedRose.heap
    (GildedRose.update_quality
       (GildedRose.__init__ [0%nat; 1%nat; 2%nat]
          {[0%nat := mkItem "Aged Brie" 1 49;
            1%nat := mkItem "Normal Item" 4 6;
            2%nat := mkItem "Sulfuras, Hand of Ragnaros" 0 80]})) !! 1%nat
  = GildedRose.heap
      (GildedRose.update_quality
         (GildedRose.__init__ [1%nat]
            {[1%nat := mkItem "Normal Item" 4 6]})) !! 1%nat.
Proof.
  refine (proj1 (proj2 (proj2 (proj2 (proj2 update_quality_frame))))
            [0%nat; 1%nat; 2%nat] [1%nat]
            {[0%nat := mkItem "Aged Brie" 1 49;
              1%nat := mkItem "Normal Item" 4 6;
              2%nat := mkItem "Sulfuras, Hand of Ragnaros" 0 80]}
            {[1%nat := mkItem "Normal Item" 4 6]} 1%nat _ _).
  - reflexivity.
  - reflexivity.
Defined.


(** * Further properties of the update engine *)

(** ** The shared helpers *)

(** [clamp_quality] is idempotent and monotone, and the values it leaves
    alone are exactly those of [0, 50]. *)
Theorem clamp_quality_projection :
  (∀ q : Z, clamp_quality (clamp_quality q) = clamp_quality q)
  ∧ (∀ q1 q2 : Z, (q1 ≤ q2)%Z → (clamp_quality q1 ≤ clamp_quality q2)%Z)
  ∧ (∀ q : Z, clamp_quality q = q ↔ (0 ≤ q ≤ 50)%Z)
  ∧ (∀ q : Z, (q < 0)%Z → clamp_quality q = 0%Z)
  ∧ (∀ q : Z, (50 < q)%Z → clamp_quality q = 50%Z).
Proof.
  unfold clamp_quality, MINIMUM_QUALITY, MAXIMUM_QUALITY.
  repeat split; intros; lia.
Qed.

Lemma clamp_quality_projection_witness :
  (clamp_quality (-7) ≤ clamp_quality 93)%Z
  ∧ clamp_quality (-7) = 0%Z
  ∧ clamp_quality 93 = 50%Z.
Proof.
  split; [|split].
  - apply (proj1 (proj2 clamp_quality_projection) (-7)%Z 93%Z). lia.
  - apply (proj1 (proj2 (proj2 (proj2 clamp_quality_projection))) (-7)%Z). lia.
  - apply (proj2 (proj2 (proj2 (proj2 clamp_quality_projection))) 93%Z). lia.
Defined.

(** The backstage bonus is 1, 2 or 3 and never grows with the number of
    days left: the nearer the concert, the larger the bonus. *)
Theorem quality_increase_antitone :
  (∀ d : Z, (1 ≤ BackstagePassUpdater._calculate_quality_increase d ≤ 3)%Z)
  ∧ (∀ d1 d2 : Z, (d1 ≤ d2)%Z →
       (BackstagePassUpdater._calculate_quality_increase d2
        ≤ BackstagePassUpdater._calculate_quality_increase d1)%Z).
Proof.
  unfold BackstagePassUpdater._calculate_quality_increase,
    BackstagePassUpdater.DAYS_CRITICAL_ZONE, BackstagePassUpdater.DAYS_URGENT_ZONE.
  split.
  - intros d. destruct (Z.ltb_spec d 6); [lia|]. destruct (Z.ltb_spec d 11); lia.
  - intros d1 d2 Hd.
    destruct (Z.ltb_spec d1 6), (Z.ltb_spec d2 6),
      (Z.ltb_spec d1 11), (Z.ltb_spec d2 11); lia.
Qed.

Lemma quality_increase_antitone_witness :
  (BackstagePassUpdater._calculate_quality_increase 12
   ≤ BackstagePassUpdater._calculate_quality_increase 3)%Z.
Proof. apply (proj2 quality_increase_antitone 3%Z 12%Z). lia. Defined.

(** ** Trajectories over several days *)

Lemma days_normal n it :
  name it ≠ AGED_BRIE → name it ≠ BACKSTAGE → name it ≠ SULFURAS →
  (0 ≤ quality it ≤ 50)%Z →
  Nat.iter n (day builtin) it
  = mkItem (name it) (sell_in it - Z.of_nat n)
      (Z.max 0 (quality it - Z.of_nat n
                - Z.max 0 (Z.of_nat n - Z.max 0 (sell_in it)))).
Proof.
  intros H1 H2 H3 Hq. induction n as [|n IH].
  - simpl. destruct it as [nm s q]; simpl in *. f_equal; lia.
  - rewrite Nat.iter_succ, IH. rewrite day_normal by done. simpl.
    f_equal; [lia|].
    unfold clamp_quality, MINIMUM_QUALITY, MAXIMUM_QUALITY.
    destruct (Z.ltb_spec (sell_in it - Z.of_nat n - 1) 0); lia.
Qed.

Lemma days_aged_brie n it :
  name it = AGED_BRIE →
  (0 ≤ quality it ≤ 50)%Z →
  Nat.iter n (day builtin) it
  = mkItem (name it) (sell_in it - Z.of_nat n)
      (Z.min 50 (quality it + Z.of_nat n
                 + Z.max 0 (Z.of_nat n - Z.max 0 (sell_in it)))).
Proof.
  intros H1 Hq. induction n as [|n IH].
  - simpl. destruct it as [nm s q]; simpl in *. f_equal; lia.
  - rewrite Nat.iter_succ, IH. rewrite day_aged_brie by done. simpl.
    f_equal; [lia|].
    unfold clamp_quality, MINIMUM_QUALITY, MAXIMUM_QUALITY.
    destruct (Z.ltb_spec (sell_in it - Z.of_nat n - 1) 0); lia.
Qed.

Lemma days_backstage n it :
  name it = BACKSTAGE →
  (0 ≤ quality it ≤ 50)%Z →
  Nat.iter n (day builtin) it
  = mkItem (name it) (sell_in it - Z.of_nat n)
      (if (0 <? Z.of_nat n)%Z && (sell_in it - Z.of_nat n <? 0)%Z
       then 0%Z
       else Z.min 50 (quality it + Z.of_nat n
                      + Z.max 0 (Z.of_nat n - Z.max 0 (sell_in it - 10))
                      + Z.max 0 (Z.of_nat n - Z.max 0 (sell_in it - 5)))).
Proof.
  intros H1 Hq. induction n as [|n IH].
  - simpl. destruct it as [nm s q]; simpl in *. f_equal; lia.
  - rewrite Nat.iter_succ, IH. rewrite day_backstage by done. simpl sell_in.
    simpl quality. simpl name. f_equal; [lia|].
    unfold clamp_quality, MINIMUM_QUALITY, MAXIMUM_QUALITY,
      BackstagePassUpdater._calculate_quality_increase,
      BackstagePassUpdater.DAYS_CRITICAL_ZONE, BackstagePassUpdater.DAYS_URGENT_ZONE.
    destruct (Z.ltb_spec (sell_in it - Z.of_nat n - 1) 0),
      (Z.ltb_spec 0 (Z.of_nat (S n))),
      (Z.ltb_spec (sell_in it - Z.of_nat (S n)) 0); simpl; try lia.
    destruct (Z.ltb_spec 0 (Z.of_nat n)),
      (Z.ltb_spec (sell_in it - Z.of_nat n) 0); simpl; try lia;
    destruct (Z.ltb_spec (sell_in it - Z.of_nat n) 6),
      (Z.ltb_spec (sell_in it - Z.of_nat n) 11); lia.
Qed.

(** A generic item with a quality within bounds, after [n] ticks: the
    quality has lost 1 per day, 1 more per day past due, and stops at 0. *)
Theorem normal_item_trajectory
    (items : list loc) (h : gmap loc Item) (r : loc) (it : Item) (n : nat) :
  h !! r = Some it →
  name it ≠ AGED_BRIE → name it ≠ BACKSTAGE → name it ≠ SULFURAS →
  occurrences r items = 1%nat →
  (0 ≤ quality it ≤ 50)%Z →
  GildedRose.heap (ticks n (GildedRose.__init__ items h)) !! r
  = Some (mkItem (name it) (sell_in it - Z.of_nat n)
            (Z.max 0 (quality it - Z.of_nat n
                      - Z.max 0 (Z.of_nat n - Z.max 0 (sell_in it))))).
Proof.
  intros Hr H1 H2 H3 Hocc Hq.
  rewrite (heap_ticks_once n (GildedRose.__init__ items h) r it Hr Hocc). simpl.
  by rewrite days_normal.
Qed.

Lemma normal_item_trajectory_witness :
  GildedRose.heap
    (ticks 5 (GildedRose.__init__ [0%nat] {[0%nat := mkItem "Normal Item" 3 10]}))
    !! 0%nat
  = Some (mkItem "Normal Item" (3 - Z.of_nat 5)
            (Z.max 0 (10 - Z.of_nat 5 - Z.max 0 (Z.of_nat 5 - Z.max 0 3)))).
Proof.
  refine (normal_item_trajectory [0%nat] {[0%nat := mkItem "Normal Item" 3 10]}
            0%nat (mkItem "Normal Item" 3 10) 5 _ _ _ _ _ _).
  - reflexivity.
  - discriminate.
  - discriminate.
  - discriminate.
  - reflexivity.
  - simpl. lia.
Defined.

(** An 'Aged Brie' with a quality within bounds, after [n] ticks: the
    quality has gained 1 per day, 1 more per day past due, and stops at
    50. *)
Theorem aged_brie_trajectory
    (items : list loc) (h : gmap loc Item) (r : loc) (it : Item) (n : nat) :
  h !! r = Some it →
  name it = AGED_BRIE →
  occurrences r items = 1%nat →
  (0 ≤ quality it ≤ 50)%Z →
  GildedRose.heap (ticks n (GildedRose.__init__ items h)) !! r
  = Some (mkItem AGED_BRIE (sell_in it - Z.of_nat n)
            (Z.min 50 (quality it + Z.of_nat n
                       + Z.max 0 (Z.of_nat n - Z.max 0 (sell_in it))))).
Proof.
  intros Hr H1 Hocc Hq.
  rewrite (heap_ticks_once n (GildedRose.__init__ items h) r it Hr Hocc). simpl.
  by rewrite days_aged_brie, H1.
Qed.

Lemma aged_brie_trajectory_witness :
  GildedRose.heap
    (ticks 4 (GildedRose.__init__ [0%nat] {[0%nat := mkItem "Aged Brie" 2 7]}))
    !! 0%nat
  = Some (mkItem AGED_BRIE (2 - Z.of_nat 4)
            (Z.min 50 (7 + Z.of_nat 4 + Z.max 0 (Z.of_nat 4 - Z.max 0 2)))).
Proof.
  refine (aged_brie_trajectory [0%nat] {[0%nat := mkItem "Aged Brie" 2 7]}
            0%nat (mkItem "Aged Brie" 2 7) 4 _ _ _ _).
  - reflexivity.
  - reflexivity.
  - reflexivity.
  - simpl. lia.
Defined.

(** A backstage pass with a quality within bounds, after [n] ticks: once
    the concert is over the quality is 0 for good; until then it has gained
    1 per day, 1 more per day with at most 10 days left and 1 more per day
    with at most 5 days left, and stops at 50. *)
Theorem backstage_trajectory
    (items : list loc) (h : gmap loc Item) (r : loc) (it : Item) (n : nat) :
  h !! r = Some it →
  name it = BACKSTAGE →
  occurrences r items = 1%nat →
  (0 ≤ quality it ≤ 50)%Z →
  GildedRose.heap (ticks n (GildedRose.__init__ items h)) !! r
  = Some (mkItem BACKSTAGE (sell_in it - Z.of_nat n)
            (if (0 <? Z.of_nat n)%Z && (sell_in it - Z.of_nat n <? 0)%Z
             then 0%Z
             else Z.min 50
                    (quality it + Z.of_nat n
                     + Z.max 0 (Z.of_nat n - Z.max 0 (sell_in it - 10))
                     + Z.max 0 (Z.of_nat n - Z.max 0 (sell_in it - 5))))).
Proof.
  intros Hr H1 Hocc Hq.
  rewrite (heap_ticks_once n (GildedRose.__init__ items h) r it Hr Hocc). simpl.
  by rewrite days_backstage, H1.
Qed.

Lemma backstage_trajectory_witness :
  GildedRose.heap
    (ticks 8 (GildedRose.__init__ [0%nat]
                {[0%nat := mkItem "Backstage passes to a TAFKAL80ETC concert" 12 20]}))
    !! 0%nat
  = Some (mkItem BACKSTAGE 4 35).
Proof.
  refine (backstage_trajectory [0%nat]
            {[0%nat := mkItem "Backstage passes to a TAFKAL80ETC concert" 12 20]}
            0%nat (mkItem "Backstage passes to a TAFKAL80ETC concert" 12 20) 8
            _ _ _ _).
  - reflexivity.
  - reflexivity.
  - reflexivity.
  - simpl. lia.
Defined.

(** ** The order of the collection *)

Lemma occurrences_Permutation r l1 l2 :
  l1 ≡ₚ l2 → occurrences r l1 = occurrences r l2.
Proof.
  induction 1 as [|x l l' _ IH|x y l|l l' l'' _ IH1 _ IH2]; simpl.
  - done.
  - by rewrite IH.
  - lia.
  - by rewrite IH1.
Qed.

(** Listing the same objects in another order gives the same heap after any
    number of ticks. *)
Theorem update_quality_order_irrelevant
    (items1 items2 : list loc) (h : gmap loc Item) (n : nat) :
  items1 ≡ₚ items2 →
  GildedRose.heap (ticks n (GildedRose.__init__ items1 h))
  = GildedRose.heap (ticks n (GildedRose.__init__ items2 h)).
Proof.
  intros Hp. apply map_eq; intros r. rewrite !heap_ticks. simpl.
  by rewrite (occurrences_Permutation r items1 items2 Hp).
Qed.

Lemma update_quality_order_irrelevant_witness :
  GildedRose.heap
    (ticks 3 (GildedRose.__init__ [0%nat; 1%nat]
                {[0%nat := mkItem "Aged Brie" 1 49;
                  1%nat := mkItem "Normal Item" 1 6]}))
  = GildedRose.heap
      (ticks 3 (GildedRose.__init__ [1%nat; 0%nat]
                  {[0%nat := mkItem "Aged Brie" 1 49;
                    1%nat := mkItem "Normal Item" 1 6]})).
Proof.
  apply update_quality_order_irrelevant. apply Permutation_swap.
Defined.

(** ** Registration *)

(** [register_strategy]: the last binding of a name wins, bindings of
    different names commute, binding a name to what it is bound to changes
    nothing, and the set of bound names only grows. *)
Theorem register_strategy_algebra :
  (∀ (f : ItemUpdaterFactory.t) (nm : string) (u1 u2 : QualityUpdater),
     ItemUpdaterFactory.register_strategy
       (ItemUpdaterFactory.register_strategy f nm u1) nm u2
     = ItemUpdaterFactory.register_strategy f nm u2)
  ∧ (∀ (f : ItemUpdaterFactory.t) (nm1 nm2 : string) (u1 u2 : QualityUpdater),
       nm1 ≠ nm2 →
       ItemUpdaterFactory.register_strategy
         (ItemUpdaterFactory.register_strategy f nm1 u1) nm2 u2
       = ItemUpdaterFactory.register_strategy
           (ItemUpdaterFactory.register_strategy f nm2 u2) nm1 u1)
  ∧ (∀ (f : ItemUpdaterFactory.t) (nm : string) (u : QualityUpdater),
       ItemUpdaterFactory._strategies f !! nm = Some u →
       ItemUpdaterFactory.register_strategy f nm u = f)
  ∧ (∀ (f : ItemUpdaterFactory.t) (nm : string) (u : QualityUpdater),
       dom (ItemUpdaterFactory._strategies
              (ItemUpdaterFactory.register_strategy f nm u))
       = {[nm]} ∪ dom (ItemUpdaterFactory._strategies f)).
Proof.
  unfold ItemUpdaterFactory.register_strategy.
  split; [|split; [|split]].
  - intros f nm u1 u2. simpl. by rewrite insert_insert_eq.
  - intros f nm1 nm2 u1 u2 Hne. simpl. f_equal. by apply insert_insert_ne.
  - intros [m] nm u Hm. simpl in *. f_equal. by apply insert_id.
  - intros f nm u. simpl. apply dom_insert_L.
Qed.

Lemma register_strategy_algebra_witness :
  ItemUpdaterFactory.register_strategy
    (ItemUpdaterFactory.register_strategy builtin "Conjured" AgedBrieUpdater)
    "Aged Brie" SulfurasUpdater
  = ItemUpdaterFactory.register_strategy
      (ItemUpdaterFactory.register_strategy builtin "Aged Brie" SulfurasUpdater)
      "Conjured" AgedBrieUpdater
  ∧ ItemUpdaterFactory.register_strategy builtin "Aged Brie" AgedBrieUpdater
    = builtin.
Proof.
  split.
  - apply (proj1 (proj2 register_strategy_algebra)). discriminate.
  - apply (proj1 (proj2 (proj2 register_strategy_algebra))). reflexivity.
Defined.

(** After [register_strategy nm u], a tick runs the two methods of [u], in
    the order quality then sell-in, on an item named [nm], and treats an
    item of another name as before the registration. *)
Theorem registered_strategy_dispatch
    (f : ItemUpdaterFactory.t) (nm : string) (u : QualityUpdater)
    (items : list loc) (h : gmap loc Item) (r : loc) (it : Item) :
  h !! r = Some it →
  occurrences r items = 1%nat →
  (name it = nm →
   GildedRose.heap
     (GildedRose.update_quality
        (GildedRose.mkWorld
           (GildedRose.mk items (ItemUpdaterFactory.register_strategy f nm u)) h))
     !! r
   = Some (update_sell_in u (update_quality u it)))
  ∧ (name it ≠ nm →
     GildedRose.heap
       (GildedRose.update_quality
          (GildedRose.mkWorld
             (GildedRose.mk items (ItemUpdaterFactory.register_strategy f nm u)) h))
       !! r
     = GildedRose.heap
         (GildedRose.update_quality
            (GildedRose.mkWorld (GildedRose.mk items f) h)) !! r).
Proof.
  intros Hr Hocc. split; intros Hn.
  - rewrite (heap_update_quality_once _ r it); [|done|done]. simpl.
    unfold day, ItemUpdaterFactory.get_updater,
      ItemUpdaterFactory.register_strategy. simpl.
    by rewrite Hn, lookup_insert_eq.
  - rewrite !(heap_update_quality_once _ r it); [|done|done|done|done]. simpl.
    unfold day, ItemUpdaterFactory.get_updater,
      ItemUpdaterFactory.register_strategy. simpl.
    by rewrite lookup_insert_ne by congruence.
Qed.

Lemma registered_strategy_dispatch_witness :
  GildedRose.heap
    (GildedRose.update_quality
       (GildedRose.mkWorld
          (GildedRose.mk [0%nat]
             (ItemUpdaterFactory.register_strategy builtin "Conjured"
                BackstagePassUpdater))
          {[0%nat := mkItem "Conjured" 3 10]})) !! 0%nat
  = Some (update_sell_in BackstagePassUpdater
            (update_quality BackstagePassUpdater (mkItem "Conjured" 3 10))).
Proof.
  refine (proj1 (registered_strategy_dispatch builtin "Conjured"
                   BackstagePassUpdater [0%nat]
                   {[0%nat := mkItem "Conjured" 3 10]}
                   0%nat (mkItem "Conjured" 3 10) _ _) _).
  - reflexivity.
  - reflexivity.
  - reflexivity.
Defined.

(** ** Display *)

Lemma list_ascii_of_string_app (a b : string) :
  String.list_ascii_of_string (a +:+ b)
  = String.list_ascii_of_string a ++ String.list_ascii_of_string b.
Proof. induction a as [|c a IH]; simpl; [done|]. by rewrite IH. Qed.

Lemma list_ascii_of_string_inj (a b : string) :
  String.list_ascii_of_string a = String.list_ascii_of_string b → a = b.
Proof.
  intros E. rewrite <- (String.string_of_list_ascii_of_string a),
    <- (String.string_of_list_ascii_of_string b). by rewrite E.
Qed.

(** The last occurrence of a character cuts a text in one way only. *)
Lemma last_separator_unique {A} (c : A) (u v x y : list A) :
  c ∉ x → c ∉ y → u ++ c :: x = v ++ c :: y → u = v ∧ x = y.
Proof.
  intros Hx Hy. revert v.
  induction u as [|a u IH]; intros [|b v] E; simpl in E.
  - by injection E.
  - injection E as -> ->. exfalso. apply Hx. apply elem_of_app. right. left.
  - injection E as -> <-. exfalso. apply Hy. apply elem_of_app. right. left.
  - injection E as -> E. destruct (IH v E) as [-> ->]. done.
Qed.

Lemma uint_digits_no_comma (d : Decimal.uint) :
  ","%char ∉ String.list_ascii_of_string (NilEmpty.string_of_uint d).
Proof.
  induction d; simpl;
    [apply not_elem_of_nil
    |apply not_elem_of_cons; split; [discriminate|done]..].
Qed.

Lemma str_no_comma (n : Z) : ","%char ∉ String.list_ascii_of_string (str n).
Proof.
  unfold str. destruct (Z.to_int n) as [d|d]; simpl.
  - destruct d; try apply uint_digits_no_comma.
    simpl. apply not_elem_of_cons; split; [discriminate|apply not_elem_of_nil].
  - apply not_elem_of_cons; split; [discriminate|].
    destruct d; try apply uint_digits_no_comma.
    simpl. apply not_elem_of_cons; split; [discriminate|apply not_elem_of_nil].
Qed.

Lemma str_inj (n m : Z) : str n = str m → n = m.
Proof.
  intros E.
  assert (∀ z, NilZero.int_of_string (str z) = Some (Z.to_int z)) as P.
  { intros z. unfold str. apply NilZero.isi.
    - destruct z; simpl; try discriminate.
      intros [= H]. by apply Unsigned.to_uint_nonnil in H.
    - destruct z; simpl; try discriminate.
      intros [= H]. by apply Unsigned.to_uint_nonnil in H. }
  pose proof (P n) as Pn. rewrite E, P in Pn. injection Pn as Pn.
  by rewrite <- (DecimalZ.of_to n), <- (DecimalZ.of_to m), Pn.
Qed.

(** [Item.__repr__] tells items apart: two items with the same display have
    the same name, sell_in and quality, even when the name itself contains
    the separator. *)
Theorem repr_injective (a b : Item) : __repr__ a = __repr__ b → a = b.
Proof.
  intros E. apply (f_equal String.list_ascii_of_string) in E.
  unfold __repr__ in E. rewrite !list_ascii_of_string_app in E. simpl in E.
  assert (∀ N S Q : list ascii,
            N ++ ","%char :: " "%char :: S ++ ","%char :: " "%char :: Q
            = (N ++ ","%char :: " "%char :: S) ++ ","%char :: (" "%char :: Q))
    as regroup by (intros; by rewrite <- app_assoc).
  rewrite !regroup in E. clear regroup.
  apply last_separator_unique in E as [E1 E2];
    [|apply not_elem_of_cons; split; [discriminate|apply str_no_comma]..].
  injection E2 as E2.
  apply last_separator_unique in E1 as [E1 E3];
    [|apply not_elem_of_cons; split; [discriminate|apply str_no_comma]..].
  injection E3 as E3.
  apply list_ascii_of_string_inj in E1, E2, E3.
  apply str_inj in E2, E3.
  destruct a, b; simpl in *. by subst.
Qed.

Lemma repr_injective_witness :
  __repr__ (mkItem "Test Item" 5 25) = "Test Item, 5, 25"
  ∧ mkItem "Sulfuras, Hand of Ragnaros" (-1) 80
    = mkItem "Sulfuras, Hand of Ragnaros" (-1) 80.
Proof.
  split; [reflexivity|].
  apply (repr_injective (mkItem "Sulfuras, Hand of Ragnaros" (-1) 80)
           (mkItem "Sulfuras, Hand of Ragnaros" (-1) 80)).
  reflexivity.
Defined.

(** ** The step definitions *)

Section Steps.

Import Bdd.

Lemma bind_assoc {A B C} (x : result A) (f : A → result B) (g : B → result C) :
  bind (bind x f) g = bind x (λ a, bind (f a) g).
Proof. by destruct x. Qed.

Lemma world_eta (w : GildedRose.World) :
  GildedRose.mkWorld (GildedRose.self w) (GildedRose.heap w) = w.
Proof. by destruct w. Qed.

(** With a [GildedRose] in the context, [n] update steps are [n] ticks. *)
Lemma update_quality_loop_some n : ∀ (s : Session) (g : GildedRose.t),
  gilded_rose (context s) = Some g →
  update_quality_loop n s
  = Ok (mkSession
          (mkContext (items (context s)) (Some g)
             (expected_qualities (context s)) (expected_sell_ins (context s)))
          (GildedRose.heap (ticks n (GildedRose.mkWorld g (objects s))))).
Proof.
  induction n as [|n IH]; intros s g Hg.
  - destruct s as [[its gr eq es] objs]; simpl in *. by rewrite Hg.
  - simpl. unfold step_update_quality_once. rewrite Hg. simpl.
    rewrite (IH _ g) by (simpl; by rewrite self_update_quality).
    simpl. do 3 f_equal.
    assert (GildedRose.mkWorld g
              (GildedRose.heap
                 (GildedRose.update_quality (GildedRose.mkWorld g (objects s))))
            = GildedRose.update_quality (GildedRose.mkWorld g (objects s))) as ->.
    { by rewrite <- (world_eta (GildedRose.update_quality _)),
        self_update_quality. }
    unfold ticks. by rewrite <- Nat.iter_succ_r.
Qed.

(** Without one, the first update step raises. *)
Lemma update_quality_loop_none n (s : Session) :
  gilded_rose (context s) = None →
  update_quality_loop n s
  = match n with O => Ok s | S _ => Raise AttributeError end.
Proof.
  intros Hg. destruct n as [|n]; [done|].
  simpl. unfold step_update_quality_once. by rewrite Hg.
Qed.

(** Given one item, when the quality is updated [times] times: the item the
    checks will look at. *)
Lemma single_item_scenario (s : Session) (nm : string) (q sv times : Z) :
  bind (step_update_quality_multiple_times
          (step_create_single_item s nm q sv) times)
    (λ s', item_at s' 0)
  = Ok (Nat.iter (Z.to_nat times) (day builtin) (mkItem nm sv q)).
Proof.
  unfold step_update_quality_multiple_times, step_create_single_item,
    new_Item, GildedRose.__init__. simpl.
  erewrite update_quality_loop_some by reflexivity. simpl.
  unfold item_at. simpl.
  erewrite heap_ticks_once; [reflexivity| |].
  - simpl. apply lookup_insert_eq.
  - simpl. by rewrite Nat.eqb_refl.
Qed.

End Steps.

(** Given one item that is not legendary, when the quality is updated
    [times] times, the sell-in check passes for the initial sell_in less
    the number of updates and for no other value; a negative [times]
    updates nothing.  The step takes the quality before the sell_in and
    builds the item the other way round. *)
Theorem scenario_sell_in (s : Bdd.Session) (nm : string) (q sv times expected : Z) :
  nm ≠ SULFURAS →
  Bdd.bind
    (Bdd.step_update_quality_multiple_times
       (Bdd.step_create_single_item s nm q sv) times)
    (λ s', Bdd.step_check_sell_in s' expected)
  = Bdd.Ok tt
  ↔ expected = (sv - Z.max 0 times)%Z.
Proof.
  intros Hn. unfold Bdd.step_check_sell_in.
  rewrite <- bind_assoc, single_item_scenario. simpl.
  rewrite days_sell_in by done. simpl. unfold Bdd.assert.
  destruct (Z.eqb_spec (sv - Z.of_nat (Z.to_nat times)) expected) as [E|E];
    split; intros H; try done; lia.
Qed.

Lemma scenario_sell_in_witness :
  Bdd.bind
    (Bdd.step_update_quality_multiple_times
       (Bdd.step_create_single_item (Bdd.mkSession Bdd.new_context ∅)
          "Aged Brie" 7 2) 3)
    (λ s', Bdd.step_check_sell_in s' (-1))
  = Bdd.Ok tt.
Proof.
  apply (proj2 (scenario_sell_in (Bdd.mkSession Bdd.new_context ∅)
                  "Aged Brie" 7 2 3 (-1) ltac:(discriminate))).
  reflexivity.
Defined.

(** Given one generic item or one 'Aged Brie' with a quality within bounds,
    when the quality is updated [times] times, the quality check passes for
    exactly the value the days give: 1 less (more) per day, 1 less (more)
    again per day past due, stopping at 0 (at 50). *)
Theorem scenario_quality (s : Bdd.Session) (nm : string) (q sv times expected : Z) :
  (0 ≤ q ≤ 50)%Z →
  (0 ≤ times)%Z →
  (nm ≠ AGED_BRIE → nm ≠ BACKSTAGE → nm ≠ SULFURAS →
   Bdd.bind
     (Bdd.step_update_quality_multiple_times
        (Bdd.step_create_single_item s nm q sv) times)
     (λ s', Bdd.step_check_quality s' expected)
   = Bdd.Ok tt
   ↔ expected = Z.max 0 (q - times - Z.max 0 (times - Z.max 0 sv)))
  ∧ (nm = AGED_BRIE →
     Bdd.bind
       (Bdd.step_update_quality_multiple_times
          (Bdd.step_create_single_item s nm q sv) times)
       (λ s', Bdd.step_check_quality s' expected)
     = Bdd.Ok tt
     ↔ expected = Z.min 50 (q + times + Z.max 0 (times - Z.max 0 sv))).
Proof.
  intros Hq Ht. unfold Bdd.step_check_quality.
  rewrite <- bind_assoc, single_item_scenario. simpl.
  split.
  - intros H1 H2 H3. rewrite days_normal by done. simpl. unfold Bdd.assert.
    rewrite Z2Nat.id by done.
    destruct (Z.eqb_spec
                (Z.max 0 (q - times - Z.max 0 (times - Z.max 0 sv))) expected);
      split; intros H; try done; lia.
  - intros H1. rewrite days_aged_brie by done. simpl. unfold Bdd.assert.
    rewrite Z2Nat.id by done.
    destruct (Z.eqb_spec
                (Z.min 50 (q + times + Z.max 0 (times - Z.max 0 sv))) expected);
      split; intros H; try done; lia.
Qed.

Lemma scenario_quality_witness :
  Bdd.bind
    (Bdd.step_update_quality_multiple_times
       (Bdd.step_create_single_item (Bdd.mkSession Bdd.new_context ∅)
          "Normal Item" 10 3) 5)
    (λ s', Bdd.step_check_quality s' 3)
  = Bdd.Ok tt.
Proof.
  refine (proj2 (proj1 (scenario_quality (Bdd.mkSession Bdd.new_context ∅)
                          "Normal Item" 10 3 5 3 _ _) _ _ _) _).
  - lia.
  - lia.
  - discriminate.
  - discriminate.
  - discriminate.
  - reflexivity.
Defined.

Lemma ticks_empty_collection n (f : ItemUpdaterFactory.t) (h : gmap loc Item) :
  ticks n (GildedRose.mkWorld (GildedRose.mk [] f) h)
  = GildedRose.mkWorld (GildedRose.mk [] f) h.
Proof. induction n as [|n IH]; simpl; [done|]. by rewrite IH. Qed.

(** On an empty inventory the update steps succeed and change nothing,
    whatever the number of updates; the checks on the first item raise
    IndexError and the checks by name fail with 'not found'.  The three
    steps that set up an empty inventory do the same thing. *)
Theorem empty_inventory_steps (s : Bdd.Session) :
  Bdd.step_update_quality_once (Bdd.step_initialize_system s)
  = Bdd.Ok (Bdd.step_initialize_system s)
  ∧ (∀ times : Z,
       Bdd.step_update_quality_multiple_times (Bdd.step_initialize_system s) times
       = Bdd.Ok (Bdd.step_initialize_system s))
  ∧ (∀ expected : Z,
       Bdd.step_check_quality (Bdd.step_initialize_system s) expected
       = Bdd.Raise Bdd.IndexError
       ∧ Bdd.step_check_sell_in (Bdd.step_initialize_system s) expected
         = Bdd.Raise Bdd.IndexError)
  ∧ (∀ (nm : string) (expected : Z),
       Bdd.step_check_item_quality_by_name (Bdd.step_initialize_system s)
         nm expected
       = Bdd.Raise (Bdd.AssertionError ("Item '" +:+ nm +:+ "' não encontrado"))
       ∧ Bdd.step_check_item_sell_in_by_name (Bdd.step_initialize_system s)
           nm expected
         = Bdd.Raise (Bdd.AssertionError ("Item '" +:+ nm +:+ "' não encontrado")))
  ∧ Bdd.step_initialize_empty_inventory s = Bdd.step_initialize_system s
  ∧ Bdd.step_ensure_empty_inventory s = Bdd.step_initialize_system s.
Proof.
  split; [reflexivity|]. split; [|by repeat split].
  intros times. unfold Bdd.step_update_quality_multiple_times.
  erewrite update_quality_loop_some by reflexivity. simpl.
  by rewrite ticks_empty_collection.
Qed.

(** Once [after_scenario] has run (or on a fresh context) there is no
    inventory manager: an update step raises AttributeError, except the
    repeated one asked for no update at all, and the checks on the first
    item raise IndexError. *)
Theorem steps_without_inventory (s : Bdd.Session) :
  Bdd.step_update_quality_once (Bdd.after_scenario s) = Bdd.Raise Bdd.AttributeError
  ∧ Bdd.step_update_all_items (Bdd.after_scenario s) = Bdd.Raise Bdd.AttributeError
  ∧ (∀ times : Z, (1 ≤ times)%Z →
       Bdd.step_update_quality_multiple_times (Bdd.after_scenario s) times
       = Bdd.Raise Bdd.AttributeError)
  ∧ (∀ times : Z, (times ≤ 0)%Z →
       Bdd.step_update_quality_multiple_times (Bdd.after_scenario s) times
       = Bdd.Ok (Bdd.after_scenario s))
  ∧ (∀ expected : Z,
       Bdd.step_check_quality (Bdd.after_scenario s) expected
       = Bdd.Raise Bdd.IndexError)
  ∧ (∀ (h : gmap loc Item) (times : Z), (1 ≤ times)%Z →
       Bdd.step_update_quality_multiple_times
         (Bdd.mkSession Bdd.new_context h) times
       = Bdd.Raise Bdd.AttributeError).
Proof.
  split; [reflexivity|]. split; [reflexivity|].
  split; [|split; [|split; [reflexivity|]]].
  - intros times Ht. unfold Bdd.step_update_quality_multiple_times.
    rewrite update_quality_loop_none by reflexivity.
    destruct (Z.to_nat times) eqn:E; [lia|done].
  - intros times Ht. unfold Bdd.step_update_quality_multiple_times.
    rewrite update_quality_loop_none by reflexivity.
    destruct (Z.to_nat times) eqn:E; [done|lia].
  - intros h times Ht. unfold Bdd.step_update_quality_multiple_times.
    rewrite update_quality_loop_none by reflexivity.
    destruct (Z.to_nat times) eqn:E; [lia|done].
Qed.

Lemma steps_without_inventory_witness :
  Bdd.step_update_quality_multiple_times
    (Bdd.after_scenario
       (Bdd.step_create_single_item (Bdd.mkSession Bdd.new_context ∅)
          "Aged Brie" 7 2)) 2
  = Bdd.Raise Bdd.AttributeError.
Proof.
  apply (proj1 (proj2 (proj2 (steps_without_inventory
           (Bdd.step_create_single_item (Bdd.mkSession Bdd.new_context ∅)
              "Aged Brie" 7 2)))) 2%Z).
  lia.
Defined.

Lemma first_named_skip (h : gmap loc Item) (nm : string) (l1 l2 : list loc) :
  Forall (λ r', ∃ it', h !! r' = Some it' ∧ name it' ≠ nm) l1 →
  Bdd.first_named h nm (l1 ++ l2) = Bdd.first_named h nm l2.
Proof.
  induction 1 as [|r' l1 (it' & Hr' & Hn) _ IH]; simpl; [done|].
  rewrite Hr'. destruct (String.eqb_spec (name it') nm); [done|apply IH].
Qed.

(** The checks by name look at the first item of the inventory that has the
    name and at no other; when no item has it they fail with 'not
    found'. *)
Theorem check_by_name_first_match
    (s : Bdd.Session) (nm : string) (expected : Z) (l1 l2 : list loc) :
  Forall (λ r', ∃ it', Bdd.objects s !! r' = Some it' ∧ name it' ≠ nm) l1 →
  (∀ (r : loc) (it : Item),
     Bdd.items (Bdd.context s) = l1 ++ r :: l2 →
     Bdd.objects s !! r = Some it →
     name it = nm →
     (Bdd.step_check_item_quality_by_name s nm expected = Bdd.Ok tt
      ↔ quality it = expected)
     ∧ (Bdd.step_check_item_sell_in_by_name s nm expected = Bdd.Ok tt
        ↔ sell_in it = expected))
  ∧ (Bdd.items (Bdd.context s) = l1 →
     Bdd.step_check_item_quality_by_name s nm expected
     = Bdd.Raise (Bdd.AssertionError ("Item '" +:+ nm +:+ "' não encontrado"))
     ∧ Bdd.step_check_item_sell_in_by_name s nm expected
       = Bdd.Raise (Bdd.AssertionError ("Item '" +:+ nm +:+ "' não encontrado"))).
Proof.
  intros Hl1. split.
  - intros r it Hitems Hr Hn.
    unfold Bdd.step_check_item_quality_by_name,
      Bdd.step_check_item_sell_in_by_name.
    rewrite Hitems, first_named_skip by done. simpl. rewrite Hr.
    destruct (String.eqb_spec (name it) nm) as [_|]; [|done]. simpl.
    unfold Bdd.assert. split.
    + destruct (Z.eqb_spec (quality it) expected); split; intros; done.
    + destruct (Z.eqb_spec (sell_in it) expected); split; intros; done.
  - intros Hitems.
    unfold Bdd.step_check_item_quality_by_name,
      Bdd.step_check_item_sell_in_by_name.
    rewrite Hitems, <- (app_nil_r l1), first_named_skip by done. done.
Qed.

Lemma check_by_name_first_match_witness :
  Bdd.step_check_item_quality_by_name
    (Bdd.mkSession (Bdd.mkContext [0%nat; 1%nat; 2%nat] None [] [])
       {[0%nat := mkItem "Aged Brie" 2 7;
         1%nat := mkItem "Normal Item" 4 9;
         2%nat := mkItem "Normal Item" 1 30]})
    "Normal Item" 9
  = Bdd.Ok tt.
Proof.
  refine (proj2 (proj1 (proj1 (check_by_name_first_match
            (Bdd.mkSession (Bdd.mkContext [0%nat; 1%nat; 2%nat] None [] [])
               {[0%nat := mkItem "Aged Brie" 2 7;
                 1%nat := mkItem "Normal Item" 4 9;
                 2%nat := mkItem "Normal Item" 1 30]})
            "Normal Item" 9 [0%nat] [2%nat] _)
            1%nat (mkItem "Normal Item" 4 9) _ _ _)) _).
  - apply Forall_cons. split; [|apply Forall_nil_2].
    exists (mkItem "Aged Brie" 2 7). split; [reflexivity|discriminate].
  - reflexivity.
  - reflexivity.
  - reflexivity.
  - reflexivity.
Defined.

(** ** The assertion helpers *)

(** The two helpers for a changed quality accept what the engine produces
    from a quality within bounds: after [n] ticks a generic item passes
    [assert_quality_decreased], and an 'Aged Brie' passes
    [assert_quality_increased], for a change of 1 per day and 1 more per
    day past due. *)
Theorem quality_change_helpers_accept
    (items : list loc) (h : gmap loc Item) (r : loc) (it : Item) (n : nat) :
  h !! r = Some it →
  occurrences r items = 1%nat →
  (0 ≤ quality it ≤ 50)%Z →
  (name it ≠ AGED_BRIE → name it ≠ BACKSTAGE → name it ≠ SULFURAS →
   ∃ it', GildedRose.heap (ticks n (GildedRose.__init__ items h)) !! r = Some it'
          ∧ Bdd.assert_quality_decreased it' (quality it)
              (Z.of_nat n + Z.max 0 (Z.of_nat n - Z.max 0 (sell_in it)))
            = Bdd.Ok tt)
  ∧ (name it = AGED_BRIE →
     ∃ it', GildedRose.heap (ticks n (GildedRose.__init__ items h)) !! r = Some it'
            ∧ Bdd.assert_quality_increased it' (quality it)
                (Z.of_nat n + Z.max 0 (Z.of_nat n - Z.max 0 (sell_in it)))
              = Bdd.Ok tt).
Proof.
  intros Hr Hocc Hq.
  rewrite (heap_ticks_once n (GildedRose.__init__ items h) r it Hr Hocc). simpl.
  split.
  - intros H1 H2 H3. eexists; split; [reflexivity|].
    rewrite days_normal by done.
    unfold Bdd.assert_quality_decreased, Bdd.assert. simpl.
    match goal with |- (if (?a =? ?b)%Z then _ else _) = _ =>
      destruct (Z.eqb_spec a b) end; [done|lia].
  - intros H1. eexists; split; [reflexivity|].
    rewrite days_aged_brie by done.
    unfold Bdd.assert_quality_increased, Bdd.assert. simpl.
    match goal with |- (if (?a =? ?b)%Z then _ else _) = _ =>
      destruct (Z.eqb_spec a b) end; [done|lia].
Qed.

Lemma quality_change_helpers_accept_witness :
  ∃ it', GildedRose.heap
           (ticks 4 (GildedRose.__init__ [0%nat]
                       {[0%nat := mkItem "Aged Brie" 2 47]})) !! 0%nat = Some it'
         ∧ Bdd.assert_quality_increased it' 47
             (Z.of_nat 4 + Z.max 0 (Z.of_nat 4 - Z.max 0 2))
           = Bdd.Ok tt.
Proof.
  refine (proj2 (quality_change_helpers_accept [0%nat]
                   {[0%nat := mkItem "Aged Brie" 2 47]}
                   0%nat (mkItem "Aged Brie" 2 47) 4 _ _ _) _).
  - reflexivity.
  - reflexivity.
  - simpl. lia.
  - reflexivity.
Defined.

(** [assert_quality_in_bounds], with its default bounds 0 and 50, accepts
    every non-legendary item of the collection after at least one tick,
    whatever its quality was; [assert_item_unchanged] accepts a legendary
    item after any number of ticks, against its initial values. *)
Theorem invariant_helpers_accept
    (items : list loc) (h : gmap loc Item) (r : loc) (it : Item) (n : nat) :
  h !! r = Some it →
  (name it ≠ SULFURAS → r ∈ items → (1 ≤ n)%nat →
   ∃ it', GildedRose.heap (ticks n (GildedRose.__init__ items h)) !! r = Some it'
          ∧ Bdd.assert_quality_in_bounds it' 0 50 = Bdd.Ok tt)
  ∧ (name it = SULFURAS →
     ∃ it', GildedRose.heap (ticks n (GildedRose.__init__ items h)) !! r = Some it'
            ∧ Bdd.assert_item_unchanged it' (quality it) (sell_in it) = Bdd.Ok tt).
Proof.
  intros Hr. rewrite heap_ticks. simpl. rewrite Hr. simpl. split.
  - intros Hs Hin Hn. eexists; split; [reflexivity|].
    apply occurrences_elem_of in Hin.
    pose proof (days_quality_in_range (n * occurrences r items) it Hs
                  ltac:(nia)) as Hrange.
    unfold in_range, MINIMUM_QUALITY, MAXIMUM_QUALITY in Hrange.
    unfold Bdd.assert_quality_in_bounds, Bdd.assert.
    match goal with |- (if (?a <=? ?b)%Z && (?c <=? ?d)%Z then _ else _) = _ =>
      destruct (Z.leb_spec a b), (Z.leb_spec c d) end; simpl; [done|lia..].
  - intros Hs. eexists; split; [reflexivity|].
    rewrite days_sulfuras by done.
    unfold Bdd.assert_item_unchanged, Bdd.assert. by rewrite !Z.eqb_refl.
Qed.

Lemma invariant_helpers_accept_witness :
  ∃ it', GildedRose.heap
           (ticks 2 (GildedRose.__init__ [0%nat]
                       {[0%nat := mkItem "Normal Item" 5 90]})) !! 0%nat = Some it'
         ∧ Bdd.assert_quality_in_bounds it' 0 50 = Bdd.Ok tt.
Proof.
  refine (proj1 (invariant_helpers_accept [0%nat]
                   {[0%nat := mkItem "Normal Item" 5 90]}
                   0%nat (mkItem "Normal Item" 5 90) 2 _) _ _ _).
  - reflexivity.
  - discriminate.
  - apply list_elem_of_here.
  - lia.
Defined.

(** ** One object listed several times *)

(** An item object listed [k] times in the collection is visited [k] times
    per tick: after [n] ticks it is where [n * k] ticks take it when it is
    listed once. *)
Theorem listed_k_times
    (items items1 : list loc) (h : gmap loc Item) (r : loc) (n : nat) :
  occurrences r items1 = 1%nat →
  GildedRose.heap (ticks n (GildedRose.__init__ items h)) !! r
  = GildedRose.heap
      (ticks (n * occurrences r items) (GildedRose.__init__ items1 h)) !! r.
Proof.
  intros H1. rewrite !heap_ticks. simpl. by rewrite H1, Nat.mul_1_r.
Qed.

Lemma listed_k_times_witness :
  GildedRose.heap
    (ticks 2 (GildedRose.__init__ [0%nat; 1%nat; 0%nat; 0%nat]
                {[0%nat := mkItem "Normal Item" 4 30;
                  1%nat := mkItem "Aged Brie" 4 30]})) !! 0%nat
  = GildedRose.heap
      (ticks 6 (GildedRose.__init__ [0%nat]
                  {[0%nat := mkItem "Normal Item" 4 30;
                    1%nat := mkItem "Aged Brie" 4 30]})) !! 0%nat.
Proof.
  apply (listed_k_times [0%nat; 1%nat; 0%nat; 0%nat] [0%nat]
           {[0%nat := mkItem "Normal Item" 4 30; 1%nat := mkItem "Aged Brie" 4 30]}
           0%nat 2).
  reflexivity.
Defined.
